(** * eDocufy: the login and registration screens

    A shallow embedding of the non-presentational logic of
    [src/Authentication/Login_Screen.tsx], [src/Authentication/SignUp_Screen.tsx]
    and of the second sign-up screen kept in the repository (the variant that
    creates its own provider client): the two form validators and the three
    asynchronous submission handlers.

    Conventions.
    - A JavaScript string is a [jsstring]: a finite sequence of 16-bit code
      units.  The string operations the screens use ([!s], [.length],
      [!==], [RegExp.test], template literals, [.trim()]) work unit by
      unit.
    - The two regular expressions are kept as syntax and run by a
      backtracking matcher in continuation-passing style, the way the
      language standard defines pattern matching.
    - A handler is a computation in a state-and-exception monad over the
      [Page]: the component's [error] and [loading] cells and the browser's
      local storage.  Its outcome is the page it leaves, the effects it
      performed in program order, and how it completed.  What each awaited
      call settles to is read from a [World]. *)

From Stdlib Require Import Ascii NArith Strings.Byte.
From stdpp Require Import base decidable option list countable gmap.

(** ** Strings *)

(** A JavaScript string is a finite sequence of 16-bit code units.  A unit
    is kept as a number; that it is below 65536 plays no role. *)
Module Js.

Inductive str : Type :=
| Empty
| Cons (u : N) (s : str).

Fixpoint units (s : str) : list N :=
  match s with
  | Empty => []
  | Cons u s' => u :: units s'
  end.

Fixpoint of_units (l : list N) : str :=
  match l with
  | [] => Empty
  | u :: l' => Cons u (of_units l')
  end.

(** [s.length] *)
Fixpoint length (s : str) : nat :=
  match s with
  | Empty => 0
  | Cons _ s' => S (length s')
  end.

(** [s + t], and the pieces of a template literal put together. *)
Fixpoint append (s t : str) : str :=
  match s with
  | Empty => t
  | Cons u s' => Cons u (append s' t)
  end.
Arguments append : simpl never.

(** [s === t] *)
Fixpoint eqb (s t : str) : bool :=
  match s, t with
  | Empty, Empty => true
  | Cons u s', Cons v t' => N.eqb u v && eqb s' t'
  | _, _ => false
  end.

(** The code unit of an ASCII character. *)
Definition code (c : ascii) : N := N_of_ascii c.
Arguments code c%_char.

(** String literals are written for ASCII text only, one unit a byte. *)
Definition of_bytes (bs : list byte) : option str :=
  if forallb (λ b, N.ltb (Byte.to_N b) 128) bs
  then Some (of_units (List.map Byte.to_N bs))
  else None.

Fixpoint to_bytes (s : str) : option (list byte) :=
  match s with
  | Empty => Some []
  | Cons u s' =>
      match (if N.ltb u 128 then Byte.of_N u else None), to_bytes s' with
      | Some b, Some bs => Some (b :: bs)
      | _, _ => None
      end
  end.

End Js.

Abbreviation jsstring := Js.str.

Declare Scope js_scope.
Delimit Scope js_scope with js.
Bind Scope js_scope with Js.str.
String Notation Js.str Js.of_bytes Js.to_bytes : js_scope.
Infix "+:+" := Js.append (at level 60, right associativity) : js_scope.
Open Scope js_scope.

#[global] Instance jsstring_eq_dec : EqDecision jsstring.
Proof. solve_decision. Defined.

#[global] Instance jsstring_countable : Countable jsstring :=
  inj_countable' Js.units Js.of_units
    (Js.str_ind (λ s, Js.of_units (Js.units s) = s) eq_refl
       (λ u s IH, f_equal (Js.Cons u) IH)).

(** [!s] on a string: only the empty string is falsy. *)
Definition falsy (s : jsstring) : bool :=
  match s with
  | Js.Empty => true
  | Js.Cons _ _ => false
  end.

(** ** Regular expressions *)

Module Regex.

(** The atoms that occur in the screens' patterns: the class [\d] and an
    escaped literal character. *)
Inductive atom : Type :=
| Digit
| Lit (c : N).

(** [Rep r lo hi] is the bounded quantifier [r{lo,hi}]; [r{n}] is
    [Rep r n n]. *)
Inductive regex : Type :=
| Atom (a : atom)
| Seq (r1 r2 : regex)
| Opt (r : regex)
| Rep (r : regex) (lo hi : nat).

(** [\d] is the range [0-9]: code units 48 to 57. *)
Definition is_digit (c : N) : bool :=
  ((48 <=? c) && (c <=? 57))%N.

Definition accepts (a : atom) (c : N) : bool :=
  match a with
  | Digit => is_digit c
  | Lit c' => N.eqb c' c
  end.

(** A matcher takes the rest of the input and a continuation that decides
    whether what follows the matched part is acceptable. *)
Definition matcher : Type := list N → (list N → bool) → bool.

(** Greedy bounded repetition, as the standard's RepeatMatcher: one more
    iteration is tried first, and stopping is allowed only once the lower
    bound is used up.  Once the lower bound is used up, an iteration that
    consumed nothing is rejected. *)
Fixpoint repeat_matcher (m : matcher) (lo hi : nat)
    (s : list N) (k : list N → bool) : bool :=
  match hi with
  | 0 => k s
  | S hi' =>
      let d := fun s' =>
        if (lo =? 0) && (length s' =? length s) then false
        else repeat_matcher m (pred lo) hi' s' k in
      match lo with
      | 0 => m s d || k s
      | S _ => m s d
      end
  end.

Fixpoint compile (r : regex) : matcher :=
  match r with
  | Atom a => fun s k =>
      match s with
      | c :: s' => accepts a c && k s'
      | [] => false
      end
  | Seq r1 r2 => fun s k => compile r1 s (fun s' => compile r2 s' k)
  | Opt r1 => fun s k => compile r1 s k || k s
  | Rep r1 lo hi => repeat_matcher (compile r1) lo hi
  end.

(** [/^r$/.test(s)] without flags: [^] only holds at index 0 and [$] only
    at the end of the input, so the pattern must match the whole string. *)
Definition test_anchored (r : regex) (s : jsstring) : bool :=
  compile r (Js.units s) (fun rest => match rest with [] => true | _ => false end).

(** *** The language of a pattern *)

Fixpoint power (L : list N → Prop) (n : nat) (s : list N) : Prop :=
  match n with
  | 0 => s = []
  | S n' => ∃ s1 s2, s = s1 ++ s2 ∧ L s1 ∧ power L n' s2
  end.

Fixpoint lang (r : regex) (s : list N) : Prop :=
  match r with
  | Atom a => ∃ c, s = [c] ∧ accepts a c = true
  | Seq r1 r2 => ∃ s1 s2, s = s1 ++ s2 ∧ lang r1 s1 ∧ lang r2 s2
  | Opt r1 => s = [] ∨ lang r1 s
  | Rep r1 lo hi => ∃ n, lo ≤ n ≤ hi ∧ power (lang r1) n s
  end.

(** A quantifier [{lo,hi}] with [lo > hi] is a syntax error. *)
Fixpoint wf (r : regex) : Prop :=
  match r with
  | Atom _ => True
  | Seq r1 r2 => wf r1 ∧ wf r2
  | Opt r1 => wf r1
  | Rep r1 lo hi => wf r1 ∧ lo ≤ hi
  end.

(** What it means for a matcher to implement a language. *)
Definition implements (m : matcher) (L : list N → Prop) : Prop :=
  ∀ s k, m s k = true ↔ ∃ s1 s2, s = s1 ++ s2 ∧ L s1 ∧ k s2 = true.

End Regex.

Import Regex.

(** The two patterns of the screens. *)

(** [/^\d{13}$/] *)
Definition re_id : regex := Rep (Atom Digit) 13 13.

(** [/^\+?\d{10,15}$/] *)
Definition re_phone : regex :=
  Seq (Opt (Atom (Lit (Js.code "+")))) (Rep (Atom Digit) 10 15).


(** ** Values that cross the program's boundary *)

(** An error object, thrown or returned, seen through the two properties the
    handlers read.  [new Error(m)] has no [code]. *)
Record JsError : Type := {
  message : jsstring;
  code : option jsstring
}.

Definition new_Error (m : jsstring) : JsError :=
  {| message := m; code := None |}.

(** A property of a parsed response body.  [Other] stands for every value
    that is neither [undefined] nor a string ([null], booleans, numbers,
    arrays, objects), kept as what the handlers can observe of it: whether it
    is truthy and what it converts to as a string, [None] when the
    conversion throws (an object whose [toString] and [valueOf] give no
    primitive value). *)
Inductive jsval : Type :=
| Undefined
| Str (s : jsstring)
| Other (is_truthy : bool) (text : option jsstring).

Definition truthy (v : jsval) : bool :=
  match v with
  | Undefined => false
  | Str s => negb (falsy s)
  | Other b _ => b
  end.

(** The conversion of a value to a string, where it succeeds. *)
Definition to_string (v : jsval) : option jsstring :=
  match v with
  | Undefined => Some "undefined"
  | Str s => Some s
  | Other _ t => t
  end.

(** [a || b] on values and on strings. *)
Definition or_else (a b : jsval) : jsval := if truthy a then a else b.
Definition or_default (a b : jsstring) : jsstring := if falsy a then b else a.

(** What [response.json()] produces: [null], on which reading a property
    throws, or any other value, seen through its properties [message] and
    [token] ([Undefined] when it has none). *)
Inductive Json : Type :=
| JNull
| JValue (msg tok : jsval).

(** How an awaited promise settles; [Pending] is a promise that never does. *)
Inductive Settled (A : Type) : Type :=
| Fulfilled (a : A)
| Rejected (e : JsError)
| Pending.
Arguments Fulfilled {A} a.
Arguments Rejected {A} e.
Arguments Pending {A}.

(** A response of [fetch]: its HTTP status and what [response.json()]
    settles to. *)
Record Response : Type := {
  status : nat;
  json : Settled Json
}.

(** [response.ok]: the status is in the range 200-299. *)
Definition ok (r : Response) : bool :=
  (200 <=? status r) && (status r <=? 299).

Record LoginRequest : Type := {
  req_idNumber : jsstring;
  req_password : jsstring
}.

Record Citizen : Type := {
  citizen_id : jsstring;
  first_name : jsstring;
  last_name : jsstring
}.

(** The [{ data, error }] pair of the citizen query. *)
Record LookupResult : Type := {
  lookup_data : option Citizen;
  lookup_error : option JsError
}.

Record Metadata : Type := {
  meta_name : jsstring;
  meta_surname : jsstring;
  meta_idNumber : jsstring;
  meta_phone : jsstring
}.

(** The argument of [supabase.auth.signUp]: the credentials, then [phone]
    (first screen) or [options.data] (second screen). *)
Record SignUpArgs : Type := {
  email : jsstring;
  arg_password : jsstring;
  arg_phone : option jsstring;
  arg_options_data : option Metadata
}.

Record User : Type := { id : jsstring }.

(** The [{ data, error }] pair of the sign-up; [data.user] may be [null]. *)
Record AuthResponse : Type := {
  auth_user : option User;
  auth_error : option JsError
}.

Record UserRow : Type := {
  row_user_id : option jsstring;
  row_citizen_id : jsstring;
  row_email : jsstring;
  row_phone : jsstring
}.

(** The [{ error }] of the insert into the users table. *)
Record InsertResult : Type := { insert_error : option JsError }.

(** ** Effects and the page state *)

Inductive Effect : Type :=
| SetError (msg : jsstring)
| SetLoading (b : bool)
| ConsoleLog (label : jsstring)
| Fetch (url : jsstring) (body : LoginRequest)
| ResponseJson
| CitizensSingle (orFilter : jsstring)
| AuthSignUp (args : SignUpArgs)
| UsersInsert (row : UserRow)
| SetItem (key value : jsstring)
| Alert (text : jsstring)
| Navigate (path : jsstring).

(** Everything outside the component: what each request settles to, the
    error the engine throws when a property of [null] is read, and the one
    it throws when a value cannot be converted to a string. *)
Record World : Type := {
  fetch : jsstring → LoginRequest → Settled Response;
  citizens_single : jsstring → Settled LookupResult;
  auth_signUp : SignUpArgs → Settled AuthResponse;
  users_insert : UserRow → Settled InsertResult;
  null_property_error : jsstring → JsError;
  conversion_error : JsError
}.

(** The component's two state cells that the handlers write, and the
    browser's local storage. *)
Record Page : Type := {
  error : jsstring;
  loading : bool;
  localStorage : gmap jsstring jsstring
}.

(** How a statement completes; [Stuck] is a handler waiting on a promise
    that never settles. *)
Inductive Completion (A : Type) : Type :=
| Normal (a : A)
| Throw (e : JsError)
| Stuck.
Arguments Normal {A} a.
Arguments Throw {A} e.
Arguments Stuck {A}.

(** Running a computation from a page gives the page it leaves, the effects
    it performed, oldest first, and how it completed. *)
Record Outcome (A : Type) : Type := {
  page : Page;
  trace : list Effect;
  completion : Completion A
}.
Arguments page {A} o.
Arguments trace {A} o.
Arguments completion {A} o.

Definition M (A : Type) : Type := Page → Outcome A.

#[global] Instance M_ret : MRet M := λ A a p,
  {| page := p; trace := []; completion := Normal a |}.

#[global] Instance M_bind : MBind M := λ A B f m p,
  match m p with
  | {| page := p1; trace := t1; completion := c1 |} =>
      match c1 with
      | Normal a =>
          match f a p1 with
          | {| page := p2; trace := t2; completion := c2 |} =>
              {| page := p2; trace := t1 ++ t2; completion := c2 |}
          end
      | Throw e => {| page := p1; trace := t1; completion := Throw e |}
      | Stuck => {| page := p1; trace := t1; completion := Stuck |}
      end
  end.

Definition throw {A : Type} (e : JsError) : M A := λ p,
  {| page := p; trace := []; completion := Throw e |}.

Definition perform (e : Effect) : M unit := λ p,
  {| page := p; trace := [e]; completion := Normal tt |}.

(** [await] of a request: the request is issued, then the handler resumes
    with the value, resumes with the rejection thrown, or never resumes. *)
Definition await {A : Type} (e : Effect) (r : Settled A) : M A := λ p,
  {| page := p; trace := [e];
     completion := match r with
                   | Fulfilled a => Normal a
                   | Rejected err => Throw err
                   | Pending => Stuck
                   end |}.

(** [finally { fin }] after a block that left the page [p1] and the trace
    [t1] and completed as [c1]: the block's completion stands unless [fin]
    itself throws or gets stuck. *)
Definition finally {A : Type} (p1 : Page) (t1 : list Effect)
    (c1 : Completion A) (fin : M unit) : Outcome A :=
  match fin p1 with
  | {| page := p2; trace := t2; completion := c2 |} =>
      {| page := p2; trace := t1 ++ t2;
         completion := match c2 with
                       | Normal _ => c1
                       | Throw e => Throw e
                       | Stuck => Stuck
                       end |}
  end.

(** [try { body } catch (err) { handler } finally { fin }].  Nothing runs
    after a block that is stuck. *)
Definition try_catch_finally {A : Type}
    (body : M A) (handler : JsError → M A) (fin : M unit) : M A := λ p,
  match body p with
  | {| page := p1; trace := t1; completion := c1 |} =>
      match c1 with
      | Normal a => finally p1 t1 (Normal a) fin
      | Throw err =>
          match handler err p1 with
          | {| page := p2; trace := t2; completion := c2 |} =>
              match c2 with
              | Stuck => {| page := p2; trace := t1 ++ t2; completion := Stuck |}
              | _ => finally p2 (t1 ++ t2) c2 fin
              end
          end
      | Stuck => {| page := p1; trace := t1; completion := Stuck |}
      end
  end.

Definition setError (msg : jsstring) : M unit := λ p,
  {| page := {| error := msg; loading := loading p;
                localStorage := localStorage p |};
     trace := [SetError msg]; completion := Normal tt |}.

Definition setLoading (b : bool) : M unit := λ p,
  {| page := {| error := error p; loading := b;
                localStorage := localStorage p |};
     trace := [SetLoading b]; completion := Normal tt |}.

(** [localStorage.setItem(key, value)] *)
Definition setItem (key value : jsstring) : M unit := λ p,
  {| page := {| error := error p; loading := loading p;
                localStorage := <[key := value]> (localStorage p) |};
     trace := [SetItem key value]; completion := Normal tt |}.

Definition navigate (path : jsstring) : M unit := perform (Navigate path).
Definition alert (text : jsstring) : M unit := perform (Alert text).
Definition console_log (label : jsstring) : M unit := perform (ConsoleLog label).

(** Reading property [prop] of a parsed body. *)
Definition get_property (w : World) (prop : jsstring) (sel : jsval → jsval → jsval)
    (data : Json) : M jsval :=
  match data with
  | JNull => throw (null_property_error w prop)
  | JValue msg tok => mret (sel msg tok)
  end.

(** A value used where a string is needed: the argument of [new Error]
    and the value given to [localStorage.setItem]. *)
Definition convert (w : World) (v : jsval) : M jsstring :=
  match to_string v with
  | Some s => mret s
  | None => throw (conversion_error w)
  end.

Definition data_message (w : World) : Json → M jsval :=
  get_property w "message" (λ msg _, msg).
Definition data_token (w : World) : Json → M jsval :=
  get_property w "token" (λ _ tok, tok).

(** [s.trim()]: white space and line terminators are removed at both ends:
    tab, line feed, vertical tab, form feed, carriage return, space,
    no-break space, U+1680, U+2000 to U+200A, the line and paragraph
    separators U+2028 and U+2029, U+202F, U+205F, U+3000 and the byte order
    mark U+FEFF. *)
Definition is_white_space (c : N) : bool :=
  match c with
  | 9 | 10 | 11 | 12 | 13 | 32 | 160 | 5760
  | 8192 | 8193 | 8194 | 8195 | 8196 | 8197 | 8198 | 8199 | 8200 | 8201 | 8202
  | 8232 | 8233 | 8239 | 8287 | 12288 | 65279 => true
  | _ => false
  end%N.

Fixpoint trim_start (s : jsstring) : jsstring :=
  match s with
  | Js.Empty => Js.Empty
  | Js.Cons c s' => if is_white_space c then trim_start s' else s
  end.

Fixpoint trim_end (s : jsstring) : jsstring :=
  match s with
  | Js.Empty => Js.Empty
  | Js.Cons c s' =>
      match trim_end s' with
      | Js.Empty => if is_white_space c then Js.Empty else Js.Cons c Js.Empty
      | t => Js.Cons c t
      end
  end.

Definition trim (s : jsstring) : jsstring := trim_end (trim_start s).

(** The double quote, as a one-unit string. *)
Definition dquote : jsstring := Js.Cons (Js.code "034") Js.Empty.



(** ** The login screen, [Login_Screen.tsx] *)

Module LoginScreen.

Record FormData : Type := {
  idNumber : jsstring;
  password : jsstring
}.

(** [validateForm]; [None] is the [null] result. *)
Definition validateForm (form : FormData) : option jsstring :=
  if falsy (idNumber form) || falsy (password form)
  then Some "Please fill in all fields."
  else if negb (test_anchored re_id (idNumber form))
  then Some "ID must be 13 digits."
  else None.

Definition login_url : jsstring :=
  "https://docufy-backend.vercel.app/api/auth/login".

(** The object given to [JSON.stringify] for the request body. *)
Definition request_body (form : FormData) : LoginRequest :=
  {| req_idNumber := idNumber form; req_password := password form |}.

(** [handleLogin].  Every message [validateForm] returns is a non-empty
    string, so [if (validationError)] is the test for a non-null result. *)
Definition handleLogin (w : World) (form : FormData) : M unit :=
  match validateForm form with
  | Some validationError => setError validationError
  | None =>
      setLoading true;;
      try_catch_finally
        (let body := request_body form in
         response ← await (Fetch login_url body) (fetch w login_url body);
         data ← await ResponseJson (json response);
         (if negb (ok response)
          then msg ← data_message w data;
               text ← convert w (or_else msg (Str "Login failed."));
               throw (new_Error text)
          else mret tt);;
         token ← data_token w data;
         (if truthy token
          then value ← convert w token;
               setItem "token" value
          else mret tt);;
         navigate "/home")
        (λ err, setError (or_default (message err)
                                     "Login failed. Check ID and password."))
        (setLoading false)
  end.

End LoginScreen.

(** ** The sign-up screen, [SignUp_Screen.tsx] *)

Module SignUpScreen.

Record FormData : Type := {
  name : jsstring;
  surname : jsstring;
  idNumber : jsstring;
  phone : jsstring;
  password : jsstring;
  confirmPassword : jsstring
}.

(** [validateForm]; [None] is the [null] result. *)
Definition validateForm (form : FormData) : option jsstring :=
  if falsy (name form) || falsy (surname form) || falsy (idNumber form)
     || falsy (phone form) || falsy (password form)
     || falsy (confirmPassword form)
  then Some "Please fill in all fields."
  else if negb (test_anchored re_id (idNumber form))
  then Some "ID Number must be 13 digits."
  else if negb (test_anchored re_phone (phone form))
  then Some "Invalid phone number."
  else if Js.length (password form) <? 8
  then Some "Password must be at least 8 characters."
  else if negb (Js.eqb (password form) (confirmPassword form))
  then Some "Passwords do not match."
  else None.

(** The [.or(...)] filter of the citizen query. *)
Definition orFilter (idNumber : jsstring) : jsstring :=
  "national_id_no.eq." +:+ dquote +:+ idNumber +:+ dquote
  +:+ ",passport_no.eq." +:+ dquote +:+ idNumber +:+ dquote.

Definition fakeEmail (form : FormData) : jsstring :=
  "user" +:+ idNumber form +:+ "@example.com".

(** The argument of [supabase.auth.signUp]. *)
Definition signUp_args (form : FormData) : SignUpArgs :=
  {| email := trim (fakeEmail form);
     arg_password := trim (password form);
     arg_phone := Some (trim (phone form));
     arg_options_data := None |}.

(** The row inserted into the users table; [authData.user?.id] is
    [undefined] when there is no user. *)
Definition users_row (form : FormData) (citizenData : Citizen)
    (authData : AuthResponse) : UserRow :=
  {| row_user_id := id <$> auth_user authData;
     row_citizen_id := citizen_id citizenData;
     row_email := fakeEmail form;
     row_phone := phone form |}.

(** [handleRegister].  Every message [validateForm] returns is a non-empty
    string, so [if (formError)] is the test for a non-null result. *)
Definition handleRegister (w : World) (form : FormData) : M unit :=
  setError Js.Empty;;
  match validateForm form with
  | Some formError => setError formError
  | None =>
      setLoading true;;
      try_catch_finally
        (let filter := orFilter (idNumber form) in
         lookup ← await (CitizensSingle filter) (citizens_single w filter);
         console_log "Citizen Error:";;
         console_log "Citizen Data:";;
         match lookup_error lookup, lookup_data lookup with
         | None, Some citizenData =>
             let args := signUp_args form in
             auth ← await (AuthSignUp args) (auth_signUp w args);
             match auth_error auth with
             | Some signUpError => throw signUpError
             | None =>
                 let row := users_row form citizenData auth in
                 ins ← await (UsersInsert row) (users_insert w row);
                 match insert_error ins with
                 | Some dbError =>
                     if negb (bool_decide (code dbError = Some "23505"))
                     then throw dbError
                     else navigate "/login"
                 | None => navigate "/login"
                 end
             end
         | _, _ =>
             throw (new_Error "No matching record found in government database.")
         end)
        (λ err, setError (or_default (message err) "Registration failed."))
        (setLoading false)
  end.

End SignUpScreen.

(** ** The second sign-up screen

    The repository keeps another version of the sign-up screen, which builds
    its own provider client and registers with the provider alone.  Its
    [FormData] interface is the one of the first screen. *)

Module SignUpScreen2.
Import SignUpScreen.

(** [validateForm], with the same body as on the first screen. *)
Definition validateForm (form : FormData) : option jsstring :=
  if falsy (name form) || falsy (surname form) || falsy (idNumber form)
     || falsy (phone form) || falsy (password form)
     || falsy (confirmPassword form)
  then Some "Please fill in all fields."
  else if negb (test_anchored re_id (idNumber form))
  then Some "ID Number must be 13 digits."
  else if negb (test_anchored re_phone (phone form))
  then Some "Invalid phone number."
  else if Js.length (password form) <? 8
  then Some "Password must be at least 8 characters."
  else if negb (Js.eqb (password form) (confirmPassword form))
  then Some "Passwords do not match."
  else None.

(** The argument of [supabase.auth.signUp]. *)
Definition signUp_args (form : FormData) : SignUpArgs :=
  {| email := "user" +:+ idNumber form +:+ "@example.com";
     arg_password := password form;
     arg_phone := None;
     arg_options_data :=
       Some {| meta_name := name form;
               meta_surname := surname form;
               meta_idNumber := idNumber form;
               meta_phone := phone form |} |}.

(** [handleRegister] *)
Definition handleRegister (w : World) (form : FormData) : M unit :=
  setError Js.Empty;;
  match validateForm form with
  | Some formError => setError formError
  | None =>
      setLoading true;;
      try_catch_finally
        (let args := signUp_args form in
         auth ← await (AuthSignUp args) (auth_signUp w args);
         match auth_error auth with
         | Some err => throw err
         | None =>
             alert "Registration successful! Please check your email to confirm.";;
             navigate "/login"
         end)
        (λ err, setError (or_default (message err) "Registration failed."))
        (setLoading false)
  end.

End SignUpScreen2.

(** ** Reading a trace *)

Definition navigations (tr : list Effect) : list jsstring :=
  omap (λ e, match e with Navigate path => Some path | _ => None end) tr.

Definition storage_writes (tr : list Effect) : list (jsstring * jsstring) :=
  omap (λ e, match e with SetItem k v => Some (k, v) | _ => None end) tr.

Definition sign_up_calls (tr : list Effect) : list SignUpArgs :=
  omap (λ e, match e with AuthSignUp args => Some args | _ => None end) tr.

Definition citizen_lookups (tr : list Effect) : list jsstring :=
  omap (λ e, match e with CitizensSingle f => Some f | _ => None end) tr.

Definition user_inserts (tr : list Effect) : list UserRow :=
  omap (λ e, match e with UsersInsert row => Some row | _ => None end) tr.

(** The effects that go over the network. *)
Definition is_request (e : Effect) : bool :=
  match e with
  | Fetch _ _ | ResponseJson | CitizensSingle _ | AuthSignUp _ | UsersInsert _ =>
      true
  | _ => false
  end.

Definition is_setLoading (e : Effect) : bool :=
  match e with
  | SetLoading _ => true
  | _ => false
  end.

(** The loading flag over one run that reached the network phase: nothing
    goes over the network before the flag is raised, the flag is written
    twice, raised first and lowered as the very last effect, and stays
    untouched in between. *)
Definition loading_span (tr : list Effect) : Prop :=
  ∃ before during,
    tr = before ++ SetLoading true :: during ++ [SetLoading false]
    ∧ Forall (λ e, is_request e = false ∧ is_setLoading e = false) before
    ∧ Forall (λ e, is_setLoading e = false) during.

(** A world in which every promise settles: no request, and no reading of
    a response body, stays pending for ever. *)
Definition responsive (w : World) : Prop :=
  (∀ url body, fetch w url body ≠ Pending)
  ∧ (∀ url body resp, fetch w url body = Fulfilled resp → json resp ≠ Pending)
  ∧ (∀ filter, citizens_single w filter ≠ Pending)
  ∧ (∀ args, auth_signUp w args ≠ Pending)
  ∧ (∀ row, users_insert w row ≠ Pending).

(** A checker for the tail of a loading span: no write of the flag until a
    final [SetLoading false]. *)
Fixpoint ends_span (tr : list Effect) : bool :=
  match tr with
  | [] => false
  | [SetLoading false] => true
  | e :: tr' => negb (is_setLoading e) && ends_span tr'
  end.

(** ** The validation rules in the words of the design document *)

Module Rules.
Import SignUpScreen.

Definition digits : list N :=
  [Js.code "0"; Js.code "1"; Js.code "2"; Js.code "3"; Js.code "4";
   Js.code "5"; Js.code "6"; Js.code "7"; Js.code "8"; Js.code "9"].

Definition all_digits (s : jsstring) : Prop :=
  Forall (λ c, c ∈ digits) (Js.units s).

(** "exactly 13 digits" *)
Definition thirteen_digits (s : jsstring) : Prop :=
  Js.length s = 13 ∧ all_digits s.

(** "an optional leading [+] followed by 10-15 digits" *)
Definition phone_number (s : jsstring) : Prop :=
  ∃ d, (s = d ∨ s = Js.Cons (Js.code "+") d)
       ∧ 10 ≤ Js.length d ≤ 15 ∧ all_digits d.

Definition all_filled (f : FormData) : Prop :=
  name f ≠ Js.Empty ∧ surname f ≠ Js.Empty
  ∧ idNumber f ≠ Js.Empty ∧ phone f ≠ Js.Empty
  ∧ password f ≠ Js.Empty ∧ confirmPassword f ≠ Js.Empty.

(** The five rules in their order of precedence: a rule applies only when
    every rule before it is met. *)
Inductive Verdict (f : FormData) : option jsstring → Prop :=
| V_fields :
    ¬ all_filled f →
    Verdict f (Some "Please fill in all fields.")
| V_id :
    all_filled f → ¬ thirteen_digits (idNumber f) →
    Verdict f (Some "ID Number must be 13 digits.")
| V_phone :
    all_filled f → thirteen_digits (idNumber f) →
    ¬ phone_number (phone f) →
    Verdict f (Some "Invalid phone number.")
| V_short :
    all_filled f → thirteen_digits (idNumber f) →
    phone_number (phone f) → Js.length (password f) < 8 →
    Verdict f (Some "Password must be at least 8 characters.")
| V_mismatch :
    all_filled f → thirteen_digits (idNumber f) →
    phone_number (phone f) → 8 ≤ Js.length (password f) →
    password f ≠ confirmPassword f →
    Verdict f (Some "Passwords do not match.")
| V_valid :
    all_filled f → thirteen_digits (idNumber f) →
    phone_number (phone f) → 8 ≤ Js.length (password f) →
    password f = confirmPassword f →
    Verdict f None.

End Rules.


(** ** Sample inputs *)

Module Samples.

Definition thandi : SignUpScreen.FormData :=
  {| SignUpScreen.name := "Thandi";
     SignUpScreen.surname := "Mokoena";
     SignUpScreen.idNumber := "9001015009087";
     SignUpScreen.phone := "+27821234567";
     SignUpScreen.password := "correct-horse";
     SignUpScreen.confirmPassword := "correct-horse" |}.

(** A short ID number and no first name. *)
Definition nameless : SignUpScreen.FormData :=
  {| SignUpScreen.name := Js.Empty;
     SignUpScreen.surname := "Mokoena";
     SignUpScreen.idNumber := "12";
     SignUpScreen.phone := "+27821234567";
     SignUpScreen.password := "correct-horse";
     SignUpScreen.confirmPassword := "correct-horse" |}.

Definition short_id : SignUpScreen.FormData :=
  {| SignUpScreen.name := "Thandi";
     SignUpScreen.surname := "Mokoena";
     SignUpScreen.idNumber := "90010150090";
     SignUpScreen.phone := "not a phone";
     SignUpScreen.password := "x";
     SignUpScreen.confirmPassword := "y" |}.

Definition thandi_login : LoginScreen.FormData :=
  {| LoginScreen.idNumber := "9001015009087"; LoginScreen.password := "correct-horse" |}.

Definition short_login : LoginScreen.FormData :=
  {| LoginScreen.idNumber := "90010150090"; LoginScreen.password := "correct-horse" |}.

Definition blank : Page :=
  {| error := Js.Empty; loading := false; localStorage := ∅ |}.

Definition mokoena : Citizen :=
  {| citizen_id := "c-1041"; first_name := "Thandi"; last_name := "Mokoena" |}.

Definition no_primitive : JsError :=
  new_Error "Cannot convert object to primitive value".

Definition type_error (prop : jsstring) : JsError :=
  new_Error ("Cannot read properties of null (reading '" +:+ prop +:+ "')").

(** A world in which everything succeeds: the login endpoint answers
    [status] with [body], the citizen is on record, the provider creates
    the user and the insert settles with [ins]. *)
Definition world (status : nat) (body : Settled Json)
    (ins : InsertResult) : World :=
  {| fetch := λ _ _, Fulfilled {| status := status; json := body |};
     citizens_single := λ _,
       Fulfilled {| lookup_data := Some mokoena; lookup_error := None |};
     auth_signUp := λ _,
       Fulfilled {| auth_user := Some {| id := "u-77" |}; auth_error := None |};
     users_insert := λ _, Fulfilled ins;
     null_property_error := type_error;
     conversion_error := no_primitive |}.

Definition calm : World :=
  world 200 (Fulfilled (JValue Undefined (Str "abc")))
        {| insert_error := None |}.

(** The citizen query finds no row. *)
Definition no_citizen : World :=
  {| fetch := fetch calm;
     citizens_single := λ _,
       Fulfilled {| lookup_data := None;
                    lookup_error :=
                      Some {| message := "JSON object requested, multiple (or no) rows returned";
                              code := Some "PGRST116" |} |};
     auth_signUp := auth_signUp calm;
     users_insert := users_insert calm;
     null_property_error := type_error;
     conversion_error := no_primitive |}.

(** The provider refuses the sign-up. *)
Definition refused : World :=
  {| fetch := fetch calm;
     citizens_single := citizens_single calm;
     auth_signUp := λ _,
       Fulfilled {| auth_user := None;
                    auth_error := Some (new_Error "User already registered") |};
     users_insert := users_insert calm;
     null_property_error := type_error;
     conversion_error := no_primitive |}.

Definition duplicate_key : JsError :=
  {| message := "duplicate key value violates unique constraint";
     code := Some "23505" |}.

Definition denied : JsError :=
  {| message := "permission denied for table users"; code := Some "42501" |}.

(** An insert error without text, as for an empty error body. *)
Definition wordless : JsError :=
  {| message := Js.Empty; code := Some "500" |}.

Definition duplicate_insert : World :=
  world 200 (Fulfilled JNull) {| insert_error := Some duplicate_key |}.

Definition denied_insert : World :=
  world 200 (Fulfilled JNull) {| insert_error := Some denied |}.

Definition wordless_insert : World :=
  world 200 (Fulfilled JNull) {| insert_error := Some wordless |}.

(** The login endpoint answers 401 with [{ message: "bad creds" }]. *)
Definition bad_creds : World :=
  world 401 (Fulfilled (JValue (Str "bad creds") Undefined))
        {| insert_error := None |}.

(** What [response.json()] rejects with on a body that is not JSON. *)
Definition not_json : JsError :=
  new_Error "Unexpected token < in JSON at position 0".


(** The login endpoint answers 502 with an HTML page. *)
Definition bad_gateway : World :=
  world 502 (Rejected not_json) {| insert_error := None |}.

End Samples.
(** ** The components around the handlers *)

(** A component instance: its [form] cell beside the cells of the page. *)
Record Component (F : Type) : Type := {
  st_form : F;
  st_page : Page
}.
Arguments st_form {F} c.
Arguments st_page {F} c.

(** The parts of the markup that depend on the state: the error paragraph
    ([None] when it is not rendered), the [name] and [value] of every input
    in document order, and the submit button's [disabled], [className] and
    label. *)
Record View : Type := {
  banner : option jsstring;
  inputs : list (jsstring * jsstring);
  submit_disabled : bool;
  submit_class : jsstring;
  submit_label : jsstring
}.

(** [{error && <p ...>{error}</p>}]: an empty string renders nothing. *)
Definition error_banner (p : Page) : option jsstring :=
  if falsy (error p) then None else Some (error p).

(** The [className] template of the submit button, the same on every
    screen. *)
Definition button_class (p : Page) : jsstring :=
  "w-full py-3 rounded-2xl text-white font-semibold transition "
  +:+ (if loading p then "bg-blue-400 cursor-not-allowed"
       else "bg-blue-600 hover:bg-blue-700").

(** A click on a button with [disabled] set is not delivered. *)
Definition click_button {F : Type} (handler : F → M unit)
    (st : Component F) : Outcome unit :=
  if loading (st_page st)
  then {| page := st_page st; trace := []; completion := Normal tt |}
  else handler (st_form st) (st_page st).

Module LoginComponent.
Import LoginScreen.

(** [{ ...form, [key]: value }], seen through the two fields of the form: a
    key that is neither adds a property nothing reads. *)
Definition assign (key value : jsstring) (form : FormData) : FormData :=
  if Js.eqb key "idNumber"
  then {| idNumber := value; password := password form |}
  else if Js.eqb key "password"
  then {| idNumber := idNumber form; password := value |}
  else form.

(** [handleChange], for an event whose target has the given [name] and
    [value]. *)
Definition handleChange (name value : jsstring)
    (st : Component FormData) : Component FormData :=
  {| st_form := assign name value (st_form st);
     st_page := page (setError Js.Empty (st_page st)) |}.

Definition render (st : Component FormData) : View :=
  {| banner := error_banner (st_page st);
     inputs := [("idNumber", idNumber (st_form st));
                ("password", password (st_form st))];
     submit_disabled := loading (st_page st);
     submit_class := button_class (st_page st);
     submit_label := if loading (st_page st) then "Logging in..." else "Login" |}.

(** [onClick={handleLogin}] on the button. *)
Definition onClick (w : World) : Component FormData → Outcome unit :=
  click_button (handleLogin w).

End LoginComponent.

(** Both sign-up screens have the same [handleChange] and the same markup;
    they differ in the handler behind the button. *)
Module SignUpComponent.
Import SignUpScreen.

(** [{ ...form, [key]: value }], seen through the six fields of [FormData]. *)
Definition assign (key value : jsstring) (form : FormData) : FormData :=
  if Js.eqb key "name"
  then {| name := value; surname := surname form; idNumber := idNumber form;
          phone := phone form; password := password form;
          confirmPassword := confirmPassword form |}
  else if Js.eqb key "surname"
  then {| name := name form; surname := value; idNumber := idNumber form;
          phone := phone form; password := password form;
          confirmPassword := confirmPassword form |}
  else if Js.eqb key "idNumber"
  then {| name := name form; surname := surname form; idNumber := value;
          phone := phone form; password := password form;
          confirmPassword := confirmPassword form |}
  else if Js.eqb key "phone"
  then {| name := name form; surname := surname form;
          idNumber := idNumber form; phone := value;
          password := password form;
          confirmPassword := confirmPassword form |}
  else if Js.eqb key "password"
  then {| name := name form; surname := surname form;
          idNumber := idNumber form; phone := phone form;
          password := value; confirmPassword := confirmPassword form |}
  else if Js.eqb key "confirmPassword"
  then {| name := name form; surname := surname form;
          idNumber := idNumber form; phone := phone form;
          password := password form; confirmPassword := value |}
  else form.

(** [handleChange], for an event whose target has the given [name] and
    [value]. *)
Definition handleChange (name value : jsstring)
    (st : Component FormData) : Component FormData :=
  {| st_form := assign name value (st_form st);
     st_page := page (setError Js.Empty (st_page st)) |}.

Definition render (st : Component FormData) : View :=
  {| banner := error_banner (st_page st);
     inputs := [("name", name (st_form st));
                ("surname", surname (st_form st));
                ("idNumber", idNumber (st_form st));
                ("phone", phone (st_form st));
                ("password", password (st_form st));
                ("confirmPassword", confirmPassword (st_form st))];
     submit_disabled := loading (st_page st);
     submit_class := button_class (st_page st);
     submit_label :=
       if loading (st_page st) then "Registering..." else "Register" |}.

(** [onClick={handleRegister}], on the first and on the second screen. *)
Definition onClick (w : World) : Component FormData → Outcome unit :=
  click_button (handleRegister w).

Definition onClick2 (w : World) : Component FormData → Outcome unit :=
  click_button (SignUpScreen2.handleRegister w).

End SignUpComponent.

(** ** More ways to read a run *)

(** The requests of a trace, in order. *)
Definition requests (tr : list Effect) : list Effect :=
  List.filter is_request tr.


(** A run that came to an end and went to [target] with [shown] on
    display, or went nowhere and displays an error. *)
Definition went_or_reported (target shown : jsstring) (o : Outcome unit) : Prop :=
  (navigations (trace o) = [target] ∧ error (page o) = shown)
  ∨ (navigations (trace o) = [] ∧ error (page o) ≠ Js.Empty).

(** The citizen query of the first sign-up screen returned a row and no
    error; the provider's sign-up returned no error. *)
Definition citizen_found (w : World) (f : SignUpScreen.FormData) : Prop :=
  ∃ r c,
    citizens_single w (SignUpScreen.orFilter (SignUpScreen.idNumber f))
      = Fulfilled r
    ∧ lookup_error r = None ∧ lookup_data r = Some c.

Definition user_created (w : World) (f : SignUpScreen.FormData) : Prop :=
  ∃ auth,
    auth_signUp w (SignUpScreen.signUp_args f) = Fulfilled auth
    ∧ auth_error auth = None.

(** Typing into several inputs one after the other. *)
Definition type_all {F : Type}
    (change : jsstring → jsstring → Component F → Component F)
    (edits : list (jsstring * jsstring)) (st : Component F) : Component F :=
  foldl (λ s e, change e.1 e.2 s) st edits.

(** The value shown by the first input called [name], if there is one. *)
Fixpoint value_of (name : jsstring) (l : list (jsstring * jsstring)) : option jsstring :=
  match l with
  | [] => None
  | (k, x) :: l' => if Js.eqb k name then Some x else value_of name l'
  end.

Definition shown (name : jsstring) (v : View) : option jsstring :=
  value_of name (inputs v).

Definition starts_with_white (s : jsstring) : bool :=
  match s with
  | Js.Empty => false
  | Js.Cons c _ => is_white_space c
  end.

Fixpoint ends_with_white (s : jsstring) : bool :=
  match s with
  | Js.Empty => false
  | Js.Cons c Js.Empty => is_white_space c
  | Js.Cons _ s' => ends_with_white s'
  end.


(** Nothing but white space. *)
Definition all_white (s : jsstring) : Prop :=
  Forall (λ c, is_white_space c = true) (Js.units s).

(** The credentials of a sign-up form, as typed into the login screen. *)
Definition login_with (f : SignUpScreen.FormData) : LoginScreen.FormData :=
  {| LoginScreen.idNumber := SignUpScreen.idNumber f;
     LoginScreen.password := SignUpScreen.password f |}.

(** ** More sample worlds *)

Module MoreSamples.

(** The login request never reaches the server. *)
Definition offline : World :=
  {| fetch := λ _ _, Rejected (new_Error "Failed to fetch");
     citizens_single := citizens_single Samples.calm;
     auth_signUp := auth_signUp Samples.calm;
     users_insert := users_insert Samples.calm;
     null_property_error := Samples.type_error;
     conversion_error := Samples.no_primitive |}.

(** The login endpoint answers 200 with [{}]. *)
Definition tokenless : World :=
  Samples.world 200 (Fulfilled (JValue Undefined Undefined))
                {| insert_error := None |}.

(** No request is ever answered. *)
Definition silent : World :=
  {| fetch := λ _ _, Pending;
     citizens_single := λ _, Pending;
     auth_signUp := λ _, Pending;
     users_insert := λ _, Pending;
     null_property_error := Samples.type_error;
     conversion_error := Samples.no_primitive |}.

(** A password of seven euro signs, and one of six letters between two
    ideographic spaces. *)
Definition euros : jsstring :=
  Js.of_units [8364; 8364; 8364; 8364; 8364; 8364; 8364]%N.

Definition wide_padded : jsstring :=
  Js.Cons 12288 ("secret" +:+ Js.Cons 12288 Js.Empty).

Definition with_password (pw : jsstring) : SignUpScreen.FormData :=
  {| SignUpScreen.name := "Thandi";
     SignUpScreen.surname := "Mokoena";
     SignUpScreen.idNumber := "9001015009087";
     SignUpScreen.phone := "+27821234567";
     SignUpScreen.password := pw;
     SignUpScreen.confirmPassword := pw |}.

(** A sign-up form whose password is wrapped in spaces. *)
Definition padded : SignUpScreen.FormData :=
  {| SignUpScreen.name := "Thandi";
     SignUpScreen.surname := "Mokoena";
     SignUpScreen.idNumber := "9001015009087";
     SignUpScreen.phone := "+27821234567";
     SignUpScreen.password := "   abc   ";
     SignUpScreen.confirmPassword := "   abc   " |}.

End MoreSamples.

(** * Properties *)

(** ** Strings and their units *)

Lemma of_units_units (s : jsstring) : Js.of_units (Js.units s) = s.
Proof. induction s as [|u s IH]; simpl; congruence. Qed.

Lemma units_of_units (l : list N) : Js.units (Js.of_units l) = l.
Proof. induction l as [|u l IH]; simpl; congruence. Qed.

Lemma eqb_spec (s t : jsstring) : reflect (s = t) (Js.eqb s t).
Proof.
  revert t. induction s as [|u s IH]; intros [|v t]; simpl;
    try (constructor; congruence).
  destruct (N.eqb_spec u v) as [->|Hne]; simpl.
  - destruct (IH t) as [->|Hne]; constructor; congruence.
  - constructor. congruence.
Qed.

Lemma append_cons (u : N) (s t : jsstring) :
  Js.Cons u s +:+ t = Js.Cons u (s +:+ t).
Proof. reflexivity. Qed.

(** ** The matcher implements the language of its pattern *)

Section MatcherCorrect.

(** Prefixing one more iteration to a run of [n] iterations. *)
Lemma power_step (L : list N → Prop) (n : nat) (s1 t1 t2 : list N) :
  L s1 → power L n t1 → power L (S n) (s1 ++ t1) ∧ (s1 ++ t1) ++ t2 = s1 ++ t1 ++ t2.
Proof.
  intros H1 Hp. split; [by exists s1, t1|]. by rewrite (assoc_L (++)).
Qed.

Lemma repeat_matcher_implements (m : matcher) (L : list N → Prop) :
  implements m L →
  ∀ hi lo, lo ≤ hi →
    implements (repeat_matcher m lo hi)
               (λ s, ∃ n, lo ≤ n ≤ hi ∧ power L n s).
Proof.
  intros Hm hi. induction hi as [|hi IH]; intros lo Hle s k.
  - simpl. split.
    + intros Hk. exists [], s. split; [done|]. split; [|done].
      exists 0. split; [lia|done].
    + intros (s1 & s2 & -> & (n & Hn & Hp) & Hk).
      assert (n = 0) as -> by lia. simpl in Hp. by subst.
  - destruct lo as [|lo]; simpl.
    + rewrite orb_true_iff, (Hm s _). split.
      * intros [(s1 & s2 & -> & HL & Hd) | Hk].
        -- destruct (length s2 =? length (s1 ++ s2)); [done|].
           apply (IH 0) in Hd as (t1 & t2 & -> & (n & Hn & Hp) & Hk); [|lia].
           destruct (power_step L n s1 t1 t2 HL Hp) as [Hp' E].
           exists (s1 ++ t1), t2. split; [done|]. split; [|done].
           exists (S n). split; [lia|done].
        -- exists [], s. split; [done|]. split; [|done].
           exists 0. split; [lia|done].
      * intros (s1 & s2 & Hs & (n & Hn & Hp) & Hk).
        revert s1 Hs Hn Hp. induction n as [|n IHn]; intros s1 Hs Hn Hp.
        { simpl in Hp. subst. by right. }
        destruct Hp as (t1 & t2 & -> & HL & Hp).
        destruct t1 as [|c t1].
        { apply (IHn t2); [done|lia|done]. }
        left. exists (c :: t1), (t2 ++ s2).
        split; [by rewrite Hs, (assoc_L (++))|]. split; [done|].
        replace (length (t2 ++ s2) =? length s) with false.
        2:{ symmetry. apply Nat.eqb_neq. rewrite Hs, !length_app. simpl. lia. }
        apply (IH 0); [lia|]. exists t2, s2. split; [done|]. split; [|done].
        exists n. split; [lia|done].
    + rewrite (Hm s _). split.
      * intros (s1 & s2 & -> & HL & Hd).
        apply (IH lo) in Hd as (t1 & t2 & -> & (n & Hn & Hp) & Hk); [|lia].
        destruct (power_step L n s1 t1 t2 HL Hp) as [Hp' E].
        exists (s1 ++ t1), t2. split; [done|]. split; [|done].
        exists (S n). split; [lia|done].
      * intros (s1 & s2 & -> & (n & Hn & Hp) & Hk).
        destruct n as [|n]; [lia|].
        destruct Hp as (t1 & t2 & -> & HL & Hp).
        exists t1, (t2 ++ s2). rewrite (assoc_L (++)). split; [done|].
        split; [done|]. apply (IH lo); [lia|].
        exists t2, s2. split; [done|]. split; [|done].
        exists n. split; [lia|done].
Qed.

Lemma compile_implements (r : regex) : wf r → implements (compile r) (lang r).
Proof.
  induction r as [a|r1 IH1 r2 IH2|r1 IH1|r1 IH1 lo hi]; simpl.
  - intros _ s k. split.
    + destruct s as [|c s]; [done|]. intros [Ha Hk]%andb_true_iff.
      exists [c], s. split; [done|]. split; [|done]. by exists c.
    + intros (s1 & s2 & -> & (c & -> & Ha) & Hk). simpl.
      by rewrite Ha, Hk.
  - intros [W1 W2] s k. rewrite (IH1 W1 s _). split.
    + intros (s1 & s2 & -> & H1 & (t1 & t2 & -> & H2 & Hk)%(IH2 W2)).
      exists (s1 ++ t1), t2. rewrite (assoc_L (++)). split; [done|].
      split; [|done]. by exists s1, t1.
    + intros (s' & s2 & -> & (s1 & t1 & -> & H1 & H2) & Hk).
      exists s1, (t1 ++ s2). rewrite (assoc_L (++)). split; [done|].
      split; [done|]. apply (IH2 W2). by exists t1, s2.
  - intros W1 s k. rewrite orb_true_iff, (IH1 W1 s _). split.
    + intros [(s1 & s2 & -> & H1 & Hk)|Hk].
      * exists s1, s2. split; [done|]. split; [by right|done].
      * exists [], s. split; [done|]. split; [by left|done].
    + intros (s1 & s2 & -> & [->|H1] & Hk); [by right|].
      left. by exists s1, s2.
  - intros [W1 Hle]. by apply repeat_matcher_implements; [apply IH1|].
Qed.

Lemma test_anchored_lang (r : regex) (s : jsstring) :
  wf r → test_anchored r s = true ↔ lang r (Js.units s).
Proof.
  intros W. unfold test_anchored. rewrite (compile_implements r W _ _). split.
  - intros (s1 & s2 & Hs & H1 & Hk). destruct s2; [|done].
    by rewrite Hs, (right_id_L [] (++)).
  - intros H. exists (Js.units s), []. by rewrite (right_id_L [] (++)).
Qed.

End MatcherCorrect.

(** ** The two patterns against the rules *)

Section Patterns.
Import Rules.

Lemma length_chars (s : jsstring) : length (Js.units s) = Js.length s.
Proof. induction s as [|c s IH]; simpl; congruence. Qed.

Lemma chars_inj (s t : jsstring) : Js.units s = Js.units t → s = t.
Proof.
  intros H. rewrite <- (of_units_units s), <- (of_units_units t).
  by rewrite H.
Qed.

Lemma is_digit_digits (c : N) : is_digit c = true ↔ c ∈ digits.
Proof.
  unfold is_digit, digits, Js.code. cbn.
  rewrite !elem_of_cons, elem_of_nil, andb_true_iff, N.leb_le, N.leb_le.
  lia.
Qed.

Lemma falsy_true (s : jsstring) : falsy s = true ↔ s = Js.Empty.
Proof. by destruct s. Qed.

Lemma falsy_false (s : jsstring) : falsy s = false ↔ s ≠ Js.Empty.
Proof. by destruct s. Qed.

(** [n] repetitions of one atom: [n] accepted characters. *)
Lemma power_atom (a : atom) (n : nat) (s : list N) :
  power (lang (Atom a)) n s
  ↔ length s = n ∧ Forall (λ c, accepts a c = true) s.
Proof.
  revert s. induction n as [|n IH]; intros s; simpl.
  - split; [by intros ->|]. intros [H _]. by destruct s.
  - split.
    + intros (s1 & s2 & -> & (c & -> & Ha) & [Hl Hf]%IH). simpl.
      split; [by rewrite Hl|by constructor].
    + intros [Hl Hf]. destruct s as [|c s]; [done|].
      inversion Hf; subst. exists [c], s. split; [done|].
      split; [by exists c|]. apply IH. simpl in Hl. split; [lia|done].
Qed.

Lemma lang_digits (lo hi : nat) (s : jsstring) :
  lang (Rep (Atom Digit) lo hi) (Js.units s)
  ↔ lo ≤ Js.length s ≤ hi ∧ all_digits s.
Proof.
  change (lang (Rep (Atom Digit) lo hi) (Js.units s))
    with (∃ n, lo ≤ n ≤ hi ∧ power (lang (Atom Digit)) n (Js.units s)).
  unfold all_digits. rewrite <- length_chars. split.
  - intros (n & Hn & [<- Hf]%power_atom). split; [done|].
    eapply Forall_impl; [exact Hf|]. intros c Hc. by apply is_digit_digits.
  - intros [Hn Hf]. exists (length (Js.units s)). split; [done|].
    apply power_atom. split; [done|].
    eapply Forall_impl; [exact Hf|]. intros c Hc. by apply is_digit_digits.
Qed.

Lemma test_id_thirteen_digits (s : jsstring) :
  test_anchored re_id s = true ↔ thirteen_digits s.
Proof.
  rewrite test_anchored_lang by (simpl; lia).
  unfold re_id, thirteen_digits. rewrite lang_digits.
  split; intros [H1 H2]; (split; [lia|done]).
Qed.

Lemma test_phone_phone_number (s : jsstring) :
  test_anchored re_phone s = true ↔ phone_number s.
Proof.
  rewrite test_anchored_lang by (simpl; lia).
  unfold re_phone, phone_number. split.
  - intros (s1 & s2 & Hs & [->|(c & -> & Hc)] & Hd).
    + simpl in Hs. exists s. split; [by left|].
      apply lang_digits. by rewrite Hs.
    + unfold accepts in Hc. apply N.eqb_eq in Hc as <-.
      exists (Js.of_units s2).
      assert (Js.units (Js.of_units s2) = s2) as E
        by apply units_of_units.
      split.
      * right. apply chars_inj. simpl. by rewrite E.
      * apply lang_digits. by rewrite E.
  - intros (d & [->| ->] & Hd%lang_digits).
    + exists [], (Js.units d). split; [done|]. split; [by left|done].
    + exists [(Js.code "+")], (Js.units d). split; [done|]. split; [|done].
      right. by exists (Js.code "+").
Qed.

End Patterns.

(** ** The validators *)

Section Validators.
Import Rules.

Lemma filled_bool (f : SignUpScreen.FormData) :
  falsy (SignUpScreen.name f) || falsy (SignUpScreen.surname f)
  || falsy (SignUpScreen.idNumber f) || falsy (SignUpScreen.phone f)
  || falsy (SignUpScreen.password f) || falsy (SignUpScreen.confirmPassword f) = false
  ↔ all_filled f.
Proof.
  unfold all_filled. rewrite !orb_false_iff, !falsy_false. tauto.
Qed.

Lemma not_true_false (b : bool) (P : Prop) :
  (b = true ↔ P) → (b = false ↔ ¬ P).
Proof.
  intros [H1 H2]. destruct b; split; try done.
  - intros HP. by destruct HP; auto.
  - intros _ HP. by specialize (H2 HP).
Qed.

(** The validator's answer is a verdict of the rules. *)
Lemma validateForm_verdict (f : SignUpScreen.FormData) :
  Verdict f (SignUpScreen.validateForm f).
Proof.
  unfold SignUpScreen.validateForm.
  destruct (_ || falsy (SignUpScreen.confirmPassword f)) eqn:Hfill.
  { apply V_fields. intros H%filled_bool. congruence. }
  apply filled_bool in Hfill.
  destruct (test_anchored re_id _) eqn:Hid; simpl.
  2:{ apply V_id; [done|]. by apply (not_true_false _ _ (test_id_thirteen_digits _)). }
  apply test_id_thirteen_digits in Hid.
  destruct (test_anchored re_phone _) eqn:Hph; simpl.
  2:{ apply V_phone; [done..|].
      by apply (not_true_false _ _ (test_phone_phone_number _)). }
  apply test_phone_phone_number in Hph.
  destruct (Nat.ltb_spec (Js.length (SignUpScreen.password f)) 8) as [Hlen|Hlen].
  { by apply V_short. }
  destruct (eqb_spec (SignUpScreen.password f) (SignUpScreen.confirmPassword f))
    as [Heq|Hne]; simpl.
  - by apply V_valid.
  - by apply V_mismatch.
Qed.

(** The rules leave room for one verdict only. *)
Lemma Verdict_functional (f : SignUpScreen.FormData) (r r' : option jsstring) :
  Verdict f r → Verdict f r' → r = r'.
Proof.
  destruct 1; destruct 1; try reflexivity; exfalso;
    solve [ tauto | lia | congruence ].
Qed.

End Validators.

(** ** Claims about the validators *)

Lemma validateForm_standalone (f : SignUpScreen.FormData) :
  SignUpScreen2.validateForm f = SignUpScreen.validateForm f.
Proof. reflexivity. Qed.

Lemma validateForm_iff_verdict (f : SignUpScreen.FormData) (r : option jsstring) :
  SignUpScreen.validateForm f = r ↔ Rules.Verdict f r.
Proof.
  split.
  - intros <-. apply validateForm_verdict.
  - intros Hr. eapply Verdict_functional; [apply validateForm_verdict|done].
Qed.

(** C1.  The registration validator, in both copies of the sign-up screen,
    returns [r] exactly when [r] is the verdict of the five rules taken in
    their order of precedence: an empty required field, an ID number that is
    not 13 digits, a phone that is not an optional [+] and 10 to 15 digits,
    a password under 8 characters, a confirmation that differs, each with
    its own message, and no error when every rule is met.  The verdict is a
    function of the fields alone. *)
Theorem validateForm_first_violation
    (f : SignUpScreen.FormData) (r : option jsstring) :
  (SignUpScreen.validateForm f = r ↔ Rules.Verdict f r)
  ∧ (SignUpScreen2.validateForm f = r ↔ Rules.Verdict f r).
Proof.
  split; [|change (SignUpScreen.validateForm f = r ↔ Rules.Verdict f r)];
    apply validateForm_iff_verdict.
Qed.

Example validateForm_thandi : SignUpScreen.validateForm Samples.thandi = None.
Proof. reflexivity. Qed.

(** Length is counted in code units: seven euro signs are seven units. *)
Example validateForm_euros :
  SignUpScreen.validateForm (MoreSamples.with_password MoreSamples.euros)
  = Some "Password must be at least 8 characters.".
Proof. reflexivity. Qed.

Example validateForm_short_id :
  SignUpScreen.validateForm Samples.short_id
  = Some "ID Number must be 13 digits.".
Proof. reflexivity. Qed.

Lemma signup_id_rule (f : SignUpScreen.FormData) :
  Rules.all_filled f → ¬ Rules.thirteen_digits (SignUpScreen.idNumber f) →
  SignUpScreen.validateForm f = Some "ID Number must be 13 digits.".
Proof.
  intros Hf Hid. apply validateForm_iff_verdict. by apply Rules.V_id.
Qed.

Lemma login_id_rule (g : LoginScreen.FormData) :
  LoginScreen.idNumber g ≠ Js.Empty →
  LoginScreen.password g ≠ Js.Empty →
  ¬ Rules.thirteen_digits (LoginScreen.idNumber g) →
  LoginScreen.validateForm g = Some "ID must be 13 digits.".
Proof.
  intros Hi%falsy_false Hp%falsy_false
    Hid%(not_true_false _ _ (test_id_thirteen_digits _)).
  unfold LoginScreen.validateForm. by rewrite Hi, Hp, Hid.
Qed.

Lemma not_thirteen_by_length (s : jsstring) :
  Js.length s ≠ 13 → ¬ Rules.thirteen_digits s.
Proof. by intros Hl [Hl' _]. Qed.

(** C6, as stated, fails: with the first name left empty, an ID number of
    two digits gets the message about empty fields. *)
Lemma id_rule_yields_to_empty_field :
  Js.length (SignUpScreen.idNumber Samples.nameless) ≠ 13
  ∧ SignUpScreen.validateForm Samples.nameless
    = Some "Please fill in all fields."
  ∧ SignUpScreen.validateForm Samples.nameless
    ≠ Some "ID Number must be 13 digits.".
Proof. split; [discriminate|]. split; [reflexivity|discriminate]. Qed.

(** C6, amended.  When every required field is filled in, an ID number
    whose length is not 13 or that holds a character other than a digit
    gets the ID-format message whatever the other fields hold: "ID Number
    must be 13 digits." on both sign-up screens and "ID must be 13 digits."
    on the login screen. *)
Theorem id_rule_when_filled
    (f : SignUpScreen.FormData) (g : LoginScreen.FormData) :
  (Rules.all_filled f →
   Js.length (SignUpScreen.idNumber f) ≠ 13
   ∨ ¬ Rules.all_digits (SignUpScreen.idNumber f) →
   SignUpScreen.validateForm f = Some "ID Number must be 13 digits."
   ∧ SignUpScreen2.validateForm f = Some "ID Number must be 13 digits.")
  ∧ (LoginScreen.idNumber g ≠ Js.Empty →
     LoginScreen.password g ≠ Js.Empty →
     Js.length (LoginScreen.idNumber g) ≠ 13
     ∨ ¬ Rules.all_digits (LoginScreen.idNumber g) →
     LoginScreen.validateForm g = Some "ID must be 13 digits.").
Proof.
  split.
  - intros Hf Hid.
    assert (SignUpScreen.validateForm f = Some "ID Number must be 13 digits.")
      as H; [|by split].
    apply signup_id_rule; [done|]. intros [Hl Hd]. by destruct Hid.
  - intros Hi Hp Hid. apply login_id_rule; [done..|].
    intros [Hl Hd]. by destruct Hid.
Qed.

Lemma id_rule_when_filled_witness :
  SignUpScreen.validateForm Samples.short_id
  = Some "ID Number must be 13 digits."
  ∧ LoginScreen.validateForm Samples.short_login
    = Some "ID must be 13 digits.".
Proof.
  destruct (id_rule_when_filled Samples.short_id Samples.short_login)
    as [Hs Hl].
  split.
  - apply Hs.
    + repeat split; discriminate.
    + left. discriminate.
  - apply Hl; [discriminate..|]. left. discriminate.
Defined.

(** C7, as stated, fails: the login screen words its message differently. *)
Lemma login_words_id_rule_differently :
  LoginScreen.idNumber Samples.short_login ≠ Js.Empty
  ∧ LoginScreen.password Samples.short_login ≠ Js.Empty
  ∧ ¬ Rules.thirteen_digits (LoginScreen.idNumber Samples.short_login)
  ∧ LoginScreen.validateForm Samples.short_login
    ≠ Some "ID Number must be 13 digits.".
Proof.
  repeat split; try discriminate. apply not_thirteen_by_length. discriminate.
Qed.

(** C7, amended.  On the login screen, a submission with both fields filled
    in and an ID number that is not exactly 13 digits gets exactly the
    message "ID must be 13 digits.". *)
Theorem login_id_message (g : LoginScreen.FormData) :
  LoginScreen.idNumber g ≠ Js.Empty →
  LoginScreen.password g ≠ Js.Empty →
  ¬ Rules.thirteen_digits (LoginScreen.idNumber g) →
  LoginScreen.validateForm g = Some "ID must be 13 digits.".
Proof. apply login_id_rule. Qed.

Lemma login_id_message_witness :
  LoginScreen.validateForm Samples.short_login = Some "ID must be 13 digits.".
Proof.
  apply (login_id_message Samples.short_login); [discriminate..|].
  apply not_thirteen_by_length. discriminate.
Defined.

(** ** Running the handlers *)

(** Unfolds the monad's operations, so that a handler run from a page
    reduces to its outcome once the world's answers are known. *)
Ltac run_monad :=
  unfold try_catch_finally, finally, mbind, M_bind, mret, M_ret, throw,
    await, perform, navigate, alert, console_log, setError, setLoading,
    setItem, data_message, data_token, get_property, convert; cbn.

Lemma or_default_cases (a b : jsstring) :
  (a ≠ Js.Empty ∧ or_default a b = a)
  ∨ (a = Js.Empty ∧ or_default a b = b).
Proof. destruct a; [by right|by left]. Qed.

Lemma ends_span_sound (tr : list Effect) :
  ends_span tr = true →
  ∃ during, tr = during ++ [SetLoading false]
            ∧ Forall (λ e, is_setLoading e = false) during.
Proof.
  induction tr as [|e tr IH]; [done|]. intros H.
  assert (e = SetLoading false ∧ tr = []
          ∨ is_setLoading e = false ∧ ends_span tr = true) as [[-> ->]|[He Ht]].
  { destruct e as [| [] | | | | | | | | |], tr; simpl in H; auto;
      try discriminate H; right; by apply andb_true_iff in H as [_ ?]. }
  - by exists [].
  - destruct (IH Ht) as (during & -> & Hd).
    exists (e :: during). split; [done|]. by constructor.
Qed.

Lemma loading_span_intro (before rest : list Effect) :
  forallb (λ e, negb (is_request e) && negb (is_setLoading e)) before = true →
  ends_span rest = true →
  loading_span (before ++ SetLoading true :: rest).
Proof.
  intros Hb (during & -> & Hd)%ends_span_sound.
  exists before, during. split; [done|]. split; [|done].
  apply Forall_forall. intros e He.
  rewrite forallb_forall in Hb. apply list_elem_of_In, Hb in He.
  apply andb_true_iff in He as [H1 H2].
  by destruct (is_request e), (is_setLoading e).
Qed.

(** *** The handlers on sample inputs *)

Example register_calm :
  trace (SignUpScreen.handleRegister Samples.calm Samples.thandi Samples.blank)
  = [SetError Js.Empty; SetLoading true;
     CitizensSingle (SignUpScreen.orFilter "9001015009087");
     ConsoleLog "Citizen Error:"; ConsoleLog "Citizen Data:";
     AuthSignUp {| email := "user9001015009087@example.com";
                   arg_password := "correct-horse";
                   arg_phone := Some "+27821234567";
                   arg_options_data := None |};
     UsersInsert {| row_user_id := Some "u-77";
                    row_citizen_id := "c-1041";
                    row_email := "user9001015009087@example.com";
                    row_phone := "+27821234567" |};
     Navigate "/login"; SetLoading false].
Proof. reflexivity. Qed.

Example register_invalid :
  SignUpScreen.handleRegister Samples.calm Samples.short_id Samples.blank
  = {| page := {| error := "ID Number must be 13 digits."; loading := false;
                  localStorage := ∅ |};
       trace := [SetError Js.Empty;
                 SetError "ID Number must be 13 digits."];
       completion := Normal tt |}.
Proof. reflexivity. Qed.

Example login_calm :
  trace (LoginScreen.handleLogin Samples.calm Samples.thandi_login
           Samples.blank)
  = [SetLoading true;
     Fetch LoginScreen.login_url
           {| req_idNumber := "9001015009087";
              req_password := "correct-horse" |};
     ResponseJson; SetItem "token" "abc"; Navigate "/home"; SetLoading false].
Proof. reflexivity. Qed.

Example login_bad_creds :
  error (page (LoginScreen.handleLogin Samples.bad_creds Samples.thandi_login
                 Samples.blank)) = "bad creds".
Proof. reflexivity. Qed.

(** *** Registration, first screen *)

Section Register.
Import SignUpScreen.

Variables (w : World) (f : FormData) (p : Page).
Hypothesis valid : validateForm f = None.

Lemma register_lookup_failed (r : LookupResult) :
  citizens_single w (orFilter (idNumber f)) = Fulfilled r →
  lookup_error r ≠ None ∨ lookup_data r = None →
  handleRegister w f p =
    {| page := {| error := "No matching record found in government database.";
                  loading := false; localStorage := localStorage p |};
       trace := [SetError Js.Empty; SetLoading true;
                 CitizensSingle (orFilter (idNumber f));
                 ConsoleLog "Citizen Error:"; ConsoleLog "Citizen Data:";
                 SetError "No matching record found in government database.";
                 SetLoading false];
       completion := Normal tt |}.
Proof.
  intros Hw Hr. unfold handleRegister. rewrite valid. run_monad.
  rewrite Hw. cbn.
  destruct (lookup_error r) as [e|], (lookup_data r) as [c|]; cbn;
    try reflexivity.
  by destruct Hr.
Qed.

(** The run up to the insert, when the citizen is found and the provider
    creates the user. *)
Lemma register_insert_settled (r : LookupResult) (c : Citizen)
    (auth : AuthResponse) (ins : InsertResult) :
  citizens_single w (orFilter (idNumber f)) = Fulfilled r →
  lookup_error r = None → lookup_data r = Some c →
  auth_signUp w (signUp_args f) = Fulfilled auth →
  auth_error auth = None →
  users_insert w (users_row f c auth) = Fulfilled ins →
  let requests := [SetError Js.Empty; SetLoading true;
                   CitizensSingle (orFilter (idNumber f));
                   ConsoleLog "Citizen Error:"; ConsoleLog "Citizen Data:";
                   AuthSignUp (signUp_args f);
                   UsersInsert (users_row f c auth)] in
  handleRegister w f p =
    match insert_error ins with
    | Some dbError =>
        if bool_decide (code dbError = Some "23505")
        then {| page := {| error := Js.Empty; loading := false;
                           localStorage := localStorage p |};
                trace := requests ++ [Navigate "/login"; SetLoading false];
                completion := Normal tt |}
        else {| page := {| error := or_default (message dbError)
                                               "Registration failed.";
                           loading := false;
                           localStorage := localStorage p |};
                trace := requests
                         ++ [SetError (or_default (message dbError)
                                                  "Registration failed.");
                             SetLoading false];
                completion := Normal tt |}
    | None => {| page := {| error := Js.Empty; loading := false;
                            localStorage := localStorage p |};
                 trace := requests ++ [Navigate "/login"; SetLoading false];
                 completion := Normal tt |}
    end.
Proof.
  intros Hw He Hd Ha Hae Hi. unfold handleRegister. rewrite valid. run_monad.
  rewrite Hw. cbn. rewrite He, Hd. cbn. rewrite Ha. cbn. rewrite Hae. cbn.
  rewrite Hi. cbn.
  destruct (insert_error ins) as [dbError|]; [|reflexivity].
  by destruct (bool_decide (code dbError = Some "23505")).
Qed.

End Register.

(** C2.  On the first sign-up screen, for every submission that passes
    validation, when the citizen query settles with an error or without a
    row, the handler ends with the error "No matching record found in
    government database." on display, having made no call to the provider's
    sign-up and no navigation. *)
Theorem register_stops_without_citizen
    (w : World) (f : SignUpScreen.FormData) (p : Page) (r : LookupResult) :
  SignUpScreen.validateForm f = None →
  citizens_single w (SignUpScreen.orFilter (SignUpScreen.idNumber f)) = Fulfilled r →
  lookup_error r ≠ None ∨ lookup_data r = None →
  error (page (SignUpScreen.handleRegister w f p))
    = "No matching record found in government database."
  ∧ sign_up_calls (trace (SignUpScreen.handleRegister w f p)) = []
  ∧ user_inserts (trace (SignUpScreen.handleRegister w f p)) = []
  ∧ navigations (trace (SignUpScreen.handleRegister w f p)) = []
  ∧ completion (SignUpScreen.handleRegister w f p) = Normal tt.
Proof.
  intros Hv Hw Hr. by rewrite (register_lookup_failed w f p Hv r Hw Hr).
Qed.

Lemma register_stops_without_citizen_witness :
  error (page (SignUpScreen.handleRegister Samples.no_citizen Samples.thandi
                                         Samples.blank))
    = "No matching record found in government database."
  ∧ sign_up_calls (trace (SignUpScreen.handleRegister Samples.no_citizen
                            Samples.thandi Samples.blank)) = [].
Proof.
  pose proof (register_stops_without_citizen Samples.no_citizen Samples.thandi
                Samples.blank _ eq_refl eq_refl) as H.
  destruct H as (H1 & H2 & _); [by left|]. by split.
Defined.

(** C3, as stated, fails in its second half: an insert error that is not a
    duplicate key and has an empty message leaves "Registration failed." on
    display, not the error's message. *)
Lemma insert_error_without_text :
  SignUpScreen.validateForm Samples.thandi = None
  ∧ users_insert Samples.wordless_insert
      (SignUpScreen.users_row Samples.thandi Samples.mokoena
         {| auth_user := Some {| id := "u-77" |}; auth_error := None |})
    = Fulfilled {| insert_error := Some Samples.wordless |}
  ∧ code Samples.wordless ≠ Some "23505"
  ∧ error (page (SignUpScreen.handleRegister Samples.wordless_insert
                   Samples.thandi Samples.blank)) = "Registration failed."
  ∧ error (page (SignUpScreen.handleRegister Samples.wordless_insert
                   Samples.thandi Samples.blank)) ≠ message Samples.wordless.
Proof. repeat split; discriminate. Qed.

(** C3, amended.  On the first sign-up screen, when validation passes, the
    citizen is found and the provider creates the user: an insert error with
    the duplicate-key code 23505 is swallowed, the handler navigates to
    /login and no error is displayed; an insert error with any other code,
    or none, puts that error's message on display, or "Registration failed."
    when the message is empty, and there is no navigation. *)
Theorem register_insert_error
    (w : World) (f : SignUpScreen.FormData) (p : Page) (r : LookupResult)
    (c : Citizen) (auth : AuthResponse) (dbError : JsError) :
  SignUpScreen.validateForm f = None →
  citizens_single w (SignUpScreen.orFilter (SignUpScreen.idNumber f)) = Fulfilled r →
  lookup_error r = None → lookup_data r = Some c →
  auth_signUp w (SignUpScreen.signUp_args f) = Fulfilled auth →
  auth_error auth = None →
  users_insert w (SignUpScreen.users_row f c auth)
    = Fulfilled {| insert_error := Some dbError |} →
  (code dbError = Some "23505" →
   navigations (trace (SignUpScreen.handleRegister w f p)) = ["/login"]
   ∧ error (page (SignUpScreen.handleRegister w f p)) = Js.Empty
   ∧ completion (SignUpScreen.handleRegister w f p) = Normal tt)
  ∧ (code dbError ≠ Some "23505" →
     navigations (trace (SignUpScreen.handleRegister w f p)) = []
     ∧ (message dbError ≠ Js.Empty →
        error (page (SignUpScreen.handleRegister w f p)) = message dbError)
     ∧ (message dbError = Js.Empty →
        error (page (SignUpScreen.handleRegister w f p)) = "Registration failed.")).
Proof.
  intros Hv Hw He Hd Ha Hae Hi.
  rewrite (register_insert_settled w f p Hv r c auth _ Hw He Hd Ha Hae Hi).
  cbn. split; intros Hc.
  - by rewrite (bool_decide_eq_true_2 _ Hc).
  - rewrite (bool_decide_eq_false_2 _ Hc). cbn. split; [done|].
    destruct (or_default_cases (message dbError) "Registration failed.")
      as [[Hm ->]|[Hm ->]]; by split.
Qed.

Lemma register_insert_error_witness :
  (navigations (trace (SignUpScreen.handleRegister Samples.duplicate_insert
                         Samples.thandi Samples.blank)) = ["/login"]
   ∧ error (page (SignUpScreen.handleRegister Samples.duplicate_insert
                    Samples.thandi Samples.blank)) = Js.Empty)
  ∧ (navigations (trace (SignUpScreen.handleRegister Samples.denied_insert
                           Samples.thandi Samples.blank)) = []
     ∧ error (page (SignUpScreen.handleRegister Samples.denied_insert
                      Samples.thandi Samples.blank))
       = "permission denied for table users").
Proof.
  split.
  - pose proof (register_insert_error Samples.duplicate_insert Samples.thandi
                  Samples.blank _ Samples.mokoena _ Samples.duplicate_key
                  eq_refl eq_refl eq_refl eq_refl eq_refl eq_refl eq_refl)
      as [H _].
    destruct (H eq_refl) as (H1 & H2 & _). by split.
  - pose proof (register_insert_error Samples.denied_insert Samples.thandi
                  Samples.blank _ Samples.mokoena _ Samples.denied
                  eq_refl eq_refl eq_refl eq_refl eq_refl eq_refl eq_refl)
      as [_ H].
    destruct H as (H1 & H2 & _); [discriminate|].
    split; [exact H1|]. apply H2. discriminate.
Defined.

(** *** Login *)

Section LoginRun.
Import LoginScreen.

Variables (w : World) (g : FormData) (p : Page).
Hypothesis valid : validateForm g = None.

(** The run after a response whose status is a success. *)
Lemma login_ok (resp : Response) (msg tok : jsval) :
  fetch w login_url (request_body g) = Fulfilled resp →
  ok resp = true →
  json resp = Fulfilled (JValue msg tok) →
  handleLogin w g p =
    if truthy tok
    then match to_string tok with
         | Some value =>
             {| page := {| error := error p; loading := false;
                           localStorage :=
                             <["token" := value]> (localStorage p) |};
                trace := [SetLoading true; Fetch login_url (request_body g);
                          ResponseJson; SetItem "token" value;
                          Navigate "/home"; SetLoading false];
                completion := Normal tt |}
         | None =>
             let shown := or_default (message (conversion_error w))
                            "Login failed. Check ID and password." in
             {| page := {| error := shown; loading := false;
                           localStorage := localStorage p |};
                trace := [SetLoading true; Fetch login_url (request_body g);
                          ResponseJson; SetError shown; SetLoading false];
                completion := Normal tt |}
         end
    else {| page := {| error := error p; loading := false;
                       localStorage := localStorage p |};
            trace := [SetLoading true; Fetch login_url (request_body g);
                      ResponseJson; Navigate "/home"; SetLoading false];
            completion := Normal tt |}.
Proof.
  intros Hw Hok Hj. unfold handleLogin. rewrite valid. run_monad.
  rewrite Hw. cbn. rewrite Hj. cbn. rewrite Hok. cbn.
  destruct (truthy tok); [|done]. by destruct (to_string tok).
Qed.

(** The run after a response whose status is not a success: whatever the
    body, one error is displayed and nothing else happens. *)
Lemma login_not_ok (resp : Response) :
  fetch w login_url (request_body g) = Fulfilled resp →
  ok resp = false →
  json resp ≠ Pending →
  ∃ shown,
    handleLogin w g p =
      {| page := {| error := shown; loading := false;
                    localStorage := localStorage p |};
         trace := [SetLoading true; Fetch login_url (request_body g);
                   ResponseJson; SetError shown; SetLoading false];
         completion := Normal tt |}
    ∧ match json resp with
      | Fulfilled (JValue msg _) =>
          shown = if truthy msg
                  then or_default
                         match to_string msg with
                         | Some text => text
                         | None => message (conversion_error w)
                         end
                         "Login failed. Check ID and password."
                  else "Login failed."
      | Fulfilled JNull =>
          shown = or_default (message (null_property_error w "message"))
                             "Login failed. Check ID and password."
      | Rejected e =>
          shown = or_default (message e) "Login failed. Check ID and password."
      | Pending => False
      end.
Proof.
  intros Hw Hok Hj. unfold handleLogin. rewrite valid. run_monad.
  rewrite Hw. cbn.
  destruct (json resp) as [[|msg tok]|e|]; cbn; [| | |done].
  - rewrite Hok. cbn. by eexists.
  - rewrite Hok. cbn. unfold or_else.
    destruct (truthy msg); cbn; [|by eexists].
    destruct (to_string msg); cbn; by eexists.
  - by eexists.
Qed.

Lemma login_fetch_failed (e : JsError) :
  fetch w login_url (request_body g) = Rejected e →
  handleLogin w g p =
    {| page := {| error := or_default (message e)
                                      "Login failed. Check ID and password.";
                  loading := false; localStorage := localStorage p |};
       trace := [SetLoading true; Fetch login_url (request_body g);
                 SetError (or_default (message e)
                                      "Login failed. Check ID and password.");
                 SetLoading false];
       completion := Normal tt |}.
Proof.
  intros Hw. unfold handleLogin. rewrite valid. run_monad. by rewrite Hw.
Qed.

(** While the request is pending the handler does not come back, and the
    loading flag stays raised. *)
Lemma login_pending :
  fetch w login_url (request_body g) = Pending →
  handleLogin w g p =
    {| page := {| error := error p; loading := true;
                  localStorage := localStorage p |};
       trace := [SetLoading true; Fetch login_url (request_body g)];
       completion := Stuck |}.
Proof.
  intros Hw. unfold handleLogin. rewrite valid. run_monad. by rewrite Hw.
Qed.

Lemma login_body_pending (resp : Response) :
  fetch w login_url (request_body g) = Fulfilled resp →
  json resp = Pending →
  handleLogin w g p =
    {| page := {| error := error p; loading := true;
                  localStorage := localStorage p |};
       trace := [SetLoading true; Fetch login_url (request_body g);
                 ResponseJson];
       completion := Stuck |}.
Proof.
  intros Hw Hj. unfold handleLogin. rewrite valid. run_monad.
  rewrite Hw. cbn. by rewrite Hj.
Qed.

End LoginRun.

(** C4.  On the login screen, for every submission that passes validation,
    when the endpoint answers with status 200 and a body whose [token] is
    the string "abc", the key [token] of the local storage is set to "abc"
    and there is exactly one navigation, to /home. *)
Theorem login_stores_token
    (w : World) (g : LoginScreen.FormData) (p : Page) (resp : Response)
    (msg : jsval) :
  LoginScreen.validateForm g = None →
  fetch w LoginScreen.login_url (LoginScreen.request_body g) = Fulfilled resp →
  status resp = 200 →
  json resp = Fulfilled (JValue msg (Str "abc")) →
  localStorage (page (LoginScreen.handleLogin w g p)) !! "token" = Some "abc"
  ∧ storage_writes (trace (LoginScreen.handleLogin w g p)) = [("token", "abc")]
  ∧ navigations (trace (LoginScreen.handleLogin w g p)) = ["/home"]
  ∧ error (page (LoginScreen.handleLogin w g p)) = error p
  ∧ completion (LoginScreen.handleLogin w g p) = Normal tt.
Proof.
  intros Hv Hw Hs Hj.
  assert (ok resp = true) as Hok by (unfold ok; by rewrite Hs).
  rewrite (login_ok w g p Hv resp msg _ Hw Hok Hj). cbn.
  by rewrite lookup_insert_eq.
Qed.

Lemma login_stores_token_witness :
  localStorage (page (LoginScreen.handleLogin Samples.calm Samples.thandi_login
                        Samples.blank)) !! "token" = Some "abc"
  ∧ navigations (trace (LoginScreen.handleLogin Samples.calm Samples.thandi_login
                          Samples.blank)) = ["/home"].
Proof.
  destruct (login_stores_token Samples.calm Samples.thandi_login Samples.blank
              _ Undefined eq_refl eq_refl eq_refl eq_refl)
    as (H1 & _ & H2 & _).
  by split.
Defined.

(** C5, as stated, fails: when the endpoint answers 502 with a body that is
    not JSON, there is no message field, and what is displayed is the parse
    error, not "Login failed.". *)
Lemma login_error_body_not_json :
  LoginScreen.validateForm Samples.thandi_login = None
  ∧ fetch Samples.bad_gateway LoginScreen.login_url
      (LoginScreen.request_body Samples.thandi_login)
    = Fulfilled {| status := 502; json := Rejected Samples.not_json |}
  ∧ ok {| status := 502; json := Rejected Samples.not_json |} = false
  ∧ error (page (LoginScreen.handleLogin Samples.bad_gateway
                   Samples.thandi_login Samples.blank))
    = "Unexpected token < in JSON at position 0"
  ∧ error (page (LoginScreen.handleLogin Samples.bad_gateway
                   Samples.thandi_login Samples.blank)) ≠ "Login failed.".
Proof. repeat split; discriminate. Qed.

(** C5, amended.  On the login screen, for every submission that passes
    validation, when the endpoint answers with a status outside 200-299 and
    the reading of the body settles: nothing is written to the local
    storage and there is no navigation; and when the body is a JSON value
    other than [null], the error on display is its [message] if that is a
    non-empty string, and "Login failed." if it has no [message] or a falsy
    one. *)
Theorem login_failure_shown
    (w : World) (g : LoginScreen.FormData) (p : Page) (resp : Response) :
  LoginScreen.validateForm g = None →
  fetch w LoginScreen.login_url (LoginScreen.request_body g) = Fulfilled resp →
  ok resp = false →
  storage_writes (trace (LoginScreen.handleLogin w g p)) = []
  ∧ localStorage (page (LoginScreen.handleLogin w g p)) = localStorage p
  ∧ navigations (trace (LoginScreen.handleLogin w g p)) = []
  ∧ (∀ s tok, json resp = Fulfilled (JValue (Str s) tok) → s ≠ Js.Empty →
       error (page (LoginScreen.handleLogin w g p)) = s)
  ∧ (∀ msg tok, json resp = Fulfilled (JValue msg tok) → truthy msg = false →
       error (page (LoginScreen.handleLogin w g p)) = "Login failed.").
Proof.
  intros Hv Hw Hok.
  destruct (json resp) as [data|e|] eqn:Hj.
  - destruct (login_not_ok w g p Hv resp Hw Hok) as (shown & -> & Hs);
      [by rewrite Hj|].
    rewrite Hj in Hs. cbn. do 3 (split; [done|]). split.
    + intros s tok [= ->] Hne. subst shown. by destruct s.
    + intros msg tok [= ->] Hm. rewrite Hm in Hs. by subst shown.
  - destruct (login_not_ok w g p Hv resp Hw Hok) as (shown & -> & Hs);
      [by rewrite Hj|].
    cbn. by do 3 (split; [done|]).
  - rewrite (login_body_pending w g p Hv resp Hw Hj). cbn.
    by do 3 (split; [done|]).
Qed.

Lemma login_failure_shown_witness :
  error (page (LoginScreen.handleLogin Samples.bad_creds Samples.thandi_login
                 Samples.blank)) = "bad creds"
  ∧ storage_writes (trace (LoginScreen.handleLogin Samples.bad_creds
                             Samples.thandi_login Samples.blank)) = []
  ∧ navigations (trace (LoginScreen.handleLogin Samples.bad_creds
                          Samples.thandi_login Samples.blank)) = [].
Proof.
  destruct (login_failure_shown Samples.bad_creds Samples.thandi_login
              Samples.blank _ eq_refl eq_refl eq_refl)
    as (H1 & _ & H2 & H3 & _).
  split; [|by split].
  apply (H3 "bad creds" Undefined); [reflexivity|discriminate].
Defined.

(** ** The loading flag *)

(** Case analysis on what the world answers to the requests a handler
    makes, and on the tests the handler performs on the answers. *)
Ltac settle :=
  repeat (cbn;
    match goal with
    | |- context [fetch ?w ?u ?b] =>
        destruct (fetch w u b) as [?|?|] eqn:?
    | |- context [json ?r] => destruct (json r) as [[|? ?]|?|] eqn:?
    | |- context [ok ?r] => destruct (ok r) eqn:?
    | |- context [truthy ?v] => destruct (truthy v) eqn:?
    | |- context [to_string ?v] => destruct (to_string v) as [?|] eqn:?
    | |- context [citizens_single ?w ?x] =>
        destruct (citizens_single w x) as [?|?|] eqn:?
    | |- context [lookup_error ?r] => destruct (lookup_error r) as [?|] eqn:?
    | |- context [lookup_data ?r] => destruct (lookup_data r) as [?|] eqn:?
    | |- context [auth_signUp ?w ?x] =>
        destruct (auth_signUp w x) as [?|?|] eqn:?
    | |- context [auth_error ?r] => destruct (auth_error r) as [?|] eqn:?
    | |- context [users_insert ?w ?x] =>
        destruct (users_insert w x) as [?|?|] eqn:?
    | |- context [insert_error ?r] => destruct (insert_error r) as [?|] eqn:?
    | |- context [bool_decide ?P] => destruct (bool_decide P) eqn:?
    end).

Lemma login_loading (w : World) (g : LoginScreen.FormData) (p : Page) :
  LoginScreen.validateForm g = None →
  completion (LoginScreen.handleLogin w g p) ≠ Stuck →
  loading (page (LoginScreen.handleLogin w g p)) = false
  ∧ loading_span (trace (LoginScreen.handleLogin w g p)).
Proof.
  intros Hv. unfold LoginScreen.handleLogin. rewrite Hv. run_monad.
  settle; intros Hc; try done;
    (split; [reflexivity|by apply (loading_span_intro [])]).
Qed.

Lemma register_loading (w : World) (f : SignUpScreen.FormData) (p : Page) :
  SignUpScreen.validateForm f = None →
  completion (SignUpScreen.handleRegister w f p) ≠ Stuck →
  loading (page (SignUpScreen.handleRegister w f p)) = false
  ∧ loading_span (trace (SignUpScreen.handleRegister w f p)).
Proof.
  intros Hv. unfold SignUpScreen.handleRegister. rewrite Hv. run_monad.
  settle; intros Hc; try done;
    (split; [reflexivity|by apply (loading_span_intro [SetError Js.Empty])]).
Qed.

Lemma standalone_loading (w : World) (f : SignUpScreen.FormData) (p : Page) :
  SignUpScreen2.validateForm f = None →
  completion (SignUpScreen2.handleRegister w f p) ≠ Stuck →
  loading (page (SignUpScreen2.handleRegister w f p)) = false
  ∧ loading_span (trace (SignUpScreen2.handleRegister w f p)).
Proof.
  intros Hv. unfold SignUpScreen2.handleRegister. rewrite Hv. run_monad.
  settle; intros Hc; try done;
    (split; [reflexivity|by apply (loading_span_intro [SetError Js.Empty])]).
Qed.

(** A handler that passed validation never completes by throwing: it
    returns, or it is stuck on a request that does not settle. *)
Lemma handlers_do_not_throw (w : World) (g : LoginScreen.FormData)
    (f : SignUpScreen.FormData) (p : Page) (e : JsError) :
  completion (LoginScreen.handleLogin w g p) ≠ Throw e
  ∧ completion (SignUpScreen.handleRegister w f p) ≠ Throw e
  ∧ completion (SignUpScreen2.handleRegister w f p) ≠ Throw e.
Proof.
  unfold LoginScreen.handleLogin, SignUpScreen.handleRegister,
    SignUpScreen2.handleRegister.
  repeat split.
  - destruct (LoginScreen.validateForm g); run_monad; [done|]. settle; done.
  - destruct (SignUpScreen.validateForm f); run_monad; [done|]. settle; done.
  - destruct (SignUpScreen2.validateForm f); run_monad; [done|].
    settle; done.
Qed.

(** A handler only waits on the promises of the world. *)
Lemma handlers_settle (w : World) (g : LoginScreen.FormData)
    (f : SignUpScreen.FormData) (p : Page) :
  responsive w →
  completion (LoginScreen.handleLogin w g p) ≠ Stuck
  ∧ completion (SignUpScreen.handleRegister w f p) ≠ Stuck
  ∧ completion (SignUpScreen2.handleRegister w f p) ≠ Stuck.
Proof.
  intros (R1 & R2 & R3 & R4 & R5).
  unfold LoginScreen.handleLogin, SignUpScreen.handleRegister,
    SignUpScreen2.handleRegister.
  split; [|split].
  - destruct (LoginScreen.validateForm g); run_monad; [done|].
    settle; try done; exfalso;
      first [by eapply R1 | eapply R2; eassumption].
  - destruct (SignUpScreen.validateForm f); run_monad; [done|].
    settle; try done; exfalso;
      first [by eapply R3 | by eapply R4 | by eapply R5].
  - destruct (SignUpScreen2.validateForm f); run_monad; [done|].
    settle; try done; exfalso; by eapply R4.
Qed.

Lemma completed_normally (c : Completion unit) :
  c ≠ Stuck → (∀ e, c ≠ Throw e) → c = Normal tt.
Proof. destruct c as [[]|e|]; [done| |done]. intros _ H. by destruct (H e). Qed.

(** C8.  In each of the three handlers, once validation has passed and
    whenever every promise the handler waits on settles, the run comes to
    an end - after a success, a thrown error or a failure passed on - with
    the loading flag lowered; the flag was raised before anything went over
    the network, lowered as the last effect of the run, and not written in
    between. *)
Theorem loading_always_cleared
    (w : World) (g : LoginScreen.FormData) (f : SignUpScreen.FormData)
    (p : Page) :
  responsive w →
  (LoginScreen.validateForm g = None →
   completion (LoginScreen.handleLogin w g p) = Normal tt
   ∧ loading (page (LoginScreen.handleLogin w g p)) = false
   ∧ loading_span (trace (LoginScreen.handleLogin w g p)))
  ∧ (SignUpScreen.validateForm f = None →
     completion (SignUpScreen.handleRegister w f p) = Normal tt
     ∧ loading (page (SignUpScreen.handleRegister w f p)) = false
     ∧ loading_span (trace (SignUpScreen.handleRegister w f p)))
  ∧ (SignUpScreen2.validateForm f = None →
     completion (SignUpScreen2.handleRegister w f p) = Normal tt
     ∧ loading (page (SignUpScreen2.handleRegister w f p)) = false
     ∧ loading_span (trace (SignUpScreen2.handleRegister w f p))).
Proof.
  intros Hw. destruct (handlers_settle w g f p Hw) as (S1 & S2 & S3).
  split; [|split]; intros Hv.
  - split; [|by apply login_loading].
    apply completed_normally; [done|]. intros e.
    apply (handlers_do_not_throw w g f p e).
  - split; [|by apply register_loading].
    apply completed_normally; [done|]. intros e.
    apply (handlers_do_not_throw w g f p e).
  - split; [|by apply standalone_loading].
    apply completed_normally; [done|]. intros e.
    apply (handlers_do_not_throw w g f p e).
Qed.

Lemma calm_responsive : responsive Samples.calm.
Proof.
  repeat split; try discriminate. intros url body resp [= <-]. discriminate.
Qed.

Lemma no_citizen_responsive : responsive Samples.no_citizen.
Proof.
  repeat split; try discriminate. intros url body resp [= <-]. discriminate.
Qed.

Lemma loading_always_cleared_witness :
  (completion (LoginScreen.handleLogin Samples.calm Samples.thandi_login
                 Samples.blank) = Normal tt
   ∧ loading (page (LoginScreen.handleLogin Samples.calm Samples.thandi_login
                      Samples.blank)) = false)
  ∧ (completion (SignUpScreen.handleRegister Samples.calm Samples.thandi
                   Samples.blank) = Normal tt
     ∧ loading (page (SignUpScreen.handleRegister Samples.calm Samples.thandi
                        Samples.blank)) = false)
  ∧ (completion (SignUpScreen2.handleRegister Samples.calm Samples.thandi
                   Samples.blank) = Normal tt
     ∧ loading (page (SignUpScreen2.handleRegister Samples.calm
                        Samples.thandi Samples.blank)) = false)
  ∧ loading (page (SignUpScreen.handleRegister Samples.no_citizen
                     Samples.thandi Samples.blank)) = false.
Proof.
  destruct (loading_always_cleared Samples.calm Samples.thandi_login
              Samples.thandi Samples.blank calm_responsive)
    as (H1 & H2 & H3).
  destruct (loading_always_cleared Samples.no_citizen Samples.thandi_login
              Samples.thandi Samples.blank no_citizen_responsive)
    as (_ & H4 & _).
  destruct (H1 eq_refl) as (C1 & L1 & _).
  destruct (H2 eq_refl) as (C2 & L2 & _).
  destruct (H3 eq_refl) as (C3 & L3 & _).
  destruct (H4 eq_refl) as (_ & L4 & _).
  split; [|split; [|split]].
  - split; [exact C1|exact L1].
  - split; [exact C2|exact L2].
  - split; [exact C3|exact L3].
  - exact L4.
Defined.

(** ** The synthetic email *)

Lemma trim_end_keeps (s t : jsstring) :
  t ≠ Js.Empty → trim_end t = t → trim_end (s +:+ t) = s +:+ t.
Proof.
  intros Hne Ht. induction s as [|c s IH]; [done|].
  change (Js.Cons c s +:+ t) with (Js.Cons c (s +:+ t)).
  cbn [trim_end]. rewrite IH.
  destruct (s +:+ t) eqn:E; [|done].
  by destruct s, t.
Qed.

(** The synthetic email has no white space at either end, so [.trim()]
    gives it back. *)
Lemma trim_fakeEmail (f : SignUpScreen.FormData) :
  trim (SignUpScreen.fakeEmail f) = SignUpScreen.fakeEmail f.
Proof.
  unfold trim, SignUpScreen.fakeEmail.
  change (trim_start ("user" +:+ SignUpScreen.idNumber f +:+ "@example.com"))
    with ("user" +:+ SignUpScreen.idNumber f +:+ "@example.com").
  change ("user" +:+ SignUpScreen.idNumber f +:+ "@example.com")
    with ("user" +:+ (SignUpScreen.idNumber f +:+ "@example.com")).
  rewrite trim_end_keeps; [done| |].
  - by destruct (SignUpScreen.idNumber f).
  - by apply trim_end_keeps.
Qed.

Lemma register_sign_up_calls (w : World) (f : SignUpScreen.FormData) (p : Page) :
  sign_up_calls (trace (SignUpScreen.handleRegister w f p)) = []
  ∨ sign_up_calls (trace (SignUpScreen.handleRegister w f p))
    = [SignUpScreen.signUp_args f].
Proof.
  unfold SignUpScreen.handleRegister.
  destruct (SignUpScreen.validateForm f); run_monad; [by left|].
  settle; auto.
Qed.

Lemma standalone_sign_up_calls (w : World) (f : SignUpScreen.FormData) (p : Page) :
  SignUpScreen2.validateForm f = None →
  sign_up_calls (trace (SignUpScreen2.handleRegister w f p))
  = [SignUpScreen2.signUp_args f].
Proof.
  intros Hv. unfold SignUpScreen2.handleRegister. rewrite Hv. run_monad.
  settle; auto.
Qed.

Lemma standalone_invalid (w : World) (f : SignUpScreen.FormData) (p : Page)
    (formError : jsstring) :
  SignUpScreen2.validateForm f = Some formError →
  SignUpScreen2.handleRegister w f p =
    {| page := {| error := formError; loading := loading p;
                  localStorage := localStorage p |};
       trace := [SetError Js.Empty; SetError formError];
       completion := Normal tt |}.
Proof.
  intros Hv. unfold SignUpScreen2.handleRegister. rewrite Hv. by run_monad.
Qed.

(** C9.  On both sign-up screens, every call of the provider's sign-up is
    given the email made of "user", the submitted ID number and
    "@example.com".  The call is made, once, as soon as validation passes
    on the second screen, and on the first screen once the citizen is
    found as well. *)
Theorem sign_up_email (w : World) (f : SignUpScreen.FormData) (p : Page) :
  (∀ args,
     args ∈ sign_up_calls (trace (SignUpScreen.handleRegister w f p))
     ∨ args ∈ sign_up_calls (trace (SignUpScreen2.handleRegister w f p)) →
     email args = "user" +:+ SignUpScreen.idNumber f +:+ "@example.com")
  ∧ (∀ r c, SignUpScreen.validateForm f = None →
       citizens_single w (SignUpScreen.orFilter (SignUpScreen.idNumber f)) = Fulfilled r →
       lookup_error r = None → lookup_data r = Some c →
       sign_up_calls (trace (SignUpScreen.handleRegister w f p))
       = [SignUpScreen.signUp_args f])
  ∧ (SignUpScreen2.validateForm f = None →
     sign_up_calls (trace (SignUpScreen2.handleRegister w f p))
     = [SignUpScreen2.signUp_args f]).
Proof.
  split; [|split].
  - intros args [Ha|Ha].
    + destruct (register_sign_up_calls w f p) as [E|E]; rewrite E in Ha.
      * by apply elem_of_nil in Ha.
      * apply list_elem_of_singleton in Ha as ->. apply trim_fakeEmail.
    + destruct (SignUpScreen2.validateForm f) as [formError|] eqn:Hv.
      * rewrite (standalone_invalid w f p formError Hv) in Ha.
        by apply elem_of_nil in Ha.
      * rewrite (standalone_sign_up_calls w f p Hv) in Ha.
        by apply list_elem_of_singleton in Ha as ->.
  - intros r c Hv Hw He Hd. unfold SignUpScreen.handleRegister.
    rewrite Hv. run_monad. rewrite Hw. cbn. rewrite He, Hd. settle; done.
  - apply standalone_sign_up_calls.
Qed.

Lemma sign_up_email_witness :
  email (SignUpScreen.signUp_args Samples.thandi)
  = "user" +:+ "9001015009087" +:+ "@example.com".
Proof.
  destruct (sign_up_email Samples.calm Samples.thandi Samples.blank)
    as (H & _ & _).
  apply H. left. vm_compute. apply list_elem_of_here.
Defined.

(** ** The second sign-up screen *)

(** C10.  The handler of the second sign-up screen never queries the
    citizens and never inserts a linking row.  For every submission that
    passes validation: when the provider's sign-up settles without an error
    the handler navigates to /login and displays no error; and when an
    error is on display at the end, it is the message of the error the
    sign-up returned or threw (or "Registration failed." if that message is
    empty), and there was no navigation. *)
Theorem standalone_sign_up_only
    (w : World) (f : SignUpScreen.FormData) (p : Page) :
  citizen_lookups (trace (SignUpScreen2.handleRegister w f p)) = []
  ∧ user_inserts (trace (SignUpScreen2.handleRegister w f p)) = []
  ∧ (SignUpScreen2.validateForm f = None →
     (∀ auth,
        auth_signUp w (SignUpScreen2.signUp_args f) = Fulfilled auth →
        auth_error auth = None →
        navigations (trace (SignUpScreen2.handleRegister w f p)) = ["/login"]
        ∧ error (page (SignUpScreen2.handleRegister w f p)) = Js.Empty
        ∧ completion (SignUpScreen2.handleRegister w f p) = Normal tt)
     ∧ (error (page (SignUpScreen2.handleRegister w f p)) ≠ Js.Empty →
        ∃ err,
          (auth_signUp w (SignUpScreen2.signUp_args f) = Rejected err
           ∨ ∃ auth,
               auth_signUp w (SignUpScreen2.signUp_args f) = Fulfilled auth
               ∧ auth_error auth = Some err)
          ∧ error (page (SignUpScreen2.handleRegister w f p))
            = or_default (message err) "Registration failed."
          ∧ navigations (trace (SignUpScreen2.handleRegister w f p)) = [])).
Proof.
  split; [|split].
  - unfold SignUpScreen2.handleRegister.
    destruct (SignUpScreen2.validateForm f); run_monad; [done|].
    settle; done.
  - unfold SignUpScreen2.handleRegister.
    destruct (SignUpScreen2.validateForm f); run_monad; [done|].
    settle; done.
  - intros Hv. unfold SignUpScreen2.handleRegister. rewrite Hv. run_monad.
    destruct (auth_signUp w (SignUpScreen2.signUp_args f))
      as [auth|err|] eqn:Hw; cbn.
    + destruct (auth_error auth) as [err|] eqn:He; cbn.
      * split; [intros ? [= <-]; congruence|].
        intros _. exists err. split; [|done]. right. by exists auth.
      * split; [done|]. intros H. by destruct H.
    + split; [done|]. intros _. exists err. split; [by left|done].
    + split; [done|]. intros H. by destruct H.
Qed.

Lemma standalone_sign_up_only_witness :
  navigations (trace (SignUpScreen2.handleRegister Samples.calm
                        Samples.thandi Samples.blank)) = ["/login"]
  ∧ error (page (SignUpScreen2.handleRegister Samples.refused
                   Samples.thandi Samples.blank)) = "User already registered".
Proof.
  destruct (standalone_sign_up_only Samples.calm Samples.thandi Samples.blank)
    as (_ & _ & H).
  destruct (H eq_refl) as [H1 _].
  destruct (H1 _ eq_refl eq_refl) as (Hn & _).
  destruct (standalone_sign_up_only Samples.refused Samples.thandi
              Samples.blank) as (_ & _ & H').
  destruct (H' eq_refl) as [_ H2].
  destruct H2 as (err & Hsrc & Hshown & _); [discriminate|].
  split; [exact Hn|]. rewrite Hshown.
  destruct Hsrc as [Hr|(auth & Ha & He)]; [discriminate Hr|].
  injection Ha as <-. by injection He as <-.
Defined.

(** * Further properties of the screens *)

(** ** The validators across the screens *)

Lemma thirteen_digits_filled (s : jsstring) :
  Rules.thirteen_digits s → s ≠ Js.Empty.
Proof. intros [Hl _] ->. discriminate Hl. Qed.

Lemma login_accepts (g : LoginScreen.FormData) :
  LoginScreen.password g ≠ Js.Empty →
  Rules.thirteen_digits (LoginScreen.idNumber g) →
  LoginScreen.validateForm g = None.
Proof.
  intros Hp%falsy_false Hid. unfold LoginScreen.validateForm.
  rewrite (proj2 (falsy_false _) (thirteen_digits_filled _ Hid)), Hp.
  by rewrite (proj2 (test_id_thirteen_digits _) Hid).
Qed.

Lemma login_blank (g : LoginScreen.FormData) :
  LoginScreen.idNumber g = Js.Empty ∨ LoginScreen.password g = Js.Empty →
  LoginScreen.validateForm g = Some "Please fill in all fields.".
Proof.
  unfold LoginScreen.validateForm. intros [->| ->]; [done|].
  by destruct (falsy (LoginScreen.idNumber g)).
Qed.

Lemma login_situations (g : LoginScreen.FormData) :
  (LoginScreen.idNumber g = Js.Empty ∨ LoginScreen.password g = Js.Empty)
  ∨ (LoginScreen.idNumber g ≠ Js.Empty
     ∧ LoginScreen.password g ≠ Js.Empty
     ∧ ¬ Rules.thirteen_digits (LoginScreen.idNumber g))
  ∨ (LoginScreen.password g ≠ Js.Empty
     ∧ Rules.thirteen_digits (LoginScreen.idNumber g)).
Proof.
  destruct (LoginScreen.idNumber g) as [|c s] eqn:Hi; [by left; left|].
  destruct (LoginScreen.password g) as [|c' s'] eqn:Hp; [by left; right|].
  destruct (test_anchored re_id (Js.Cons c s)) eqn:Hid.
  - apply test_id_thirteen_digits in Hid. by right; right.
  - apply (not_true_false _ _ (test_id_thirteen_digits _)) in Hid.
    by right; left.
Qed.

(** X1.  The login validator accepts a form exactly when the password is
    not empty and the ID number is 13 digits; it reports empty fields
    exactly when one of the two is empty, and the ID message exactly when
    both are filled in and the ID number is not 13 digits.  The password
    is held to no rule beyond being there. *)
Theorem login_validateForm_cases (g : LoginScreen.FormData) :
  (LoginScreen.validateForm g = None
   ↔ LoginScreen.password g ≠ Js.Empty
     ∧ Rules.thirteen_digits (LoginScreen.idNumber g))
  ∧ (LoginScreen.validateForm g = Some "Please fill in all fields."
     ↔ LoginScreen.idNumber g = Js.Empty
       ∨ LoginScreen.password g = Js.Empty)
  ∧ (LoginScreen.validateForm g = Some "ID must be 13 digits."
     ↔ LoginScreen.idNumber g ≠ Js.Empty
       ∧ LoginScreen.password g ≠ Js.Empty
       ∧ ¬ Rules.thirteen_digits (LoginScreen.idNumber g)).
Proof.
  destruct (login_situations g) as [Hb|[(Hi & Hp & Hid)|[Hp Hid]]].
  - rewrite (login_blank g Hb). split; [|split]; split.
    + discriminate.
    + intros [Hp Hid%thirteen_digits_filled]. by destruct Hb.
    + done.
    + done.
    + discriminate.
    + intros (Hi & Hp & _). by destruct Hb.
  - rewrite (login_id_rule g Hi Hp Hid). split; [|split]; split.
    + discriminate.
    + by intros [_ ?].
    + discriminate.
    + by intros [|].
    + done.
    + done.
  - rewrite (login_accepts g Hp Hid). split; [|split]; split.
    + done.
    + done.
    + discriminate.
    + intros [Hi|Hq]; [|done]. by apply thirteen_digits_filled in Hid.
    + discriminate.
    + by intros (_ & _ & ?).
Qed.

(** X2.  Whoever passes the sign-up validation passes the login validation
    with the same ID number and password. *)
Theorem signup_valid_login_valid (f : SignUpScreen.FormData) :
  SignUpScreen.validateForm f = None →
  LoginScreen.validateForm (login_with f) = None.
Proof.
  intros Hv%validateForm_iff_verdict.
  inversion Hv as [| | | | |Hf Hid Hph Hlen Heq].
  apply login_accepts; [|done].
  by destruct Hf as (_ & _ & _ & _ & ? & _).
Qed.

Lemma signup_valid_login_valid_witness :
  LoginScreen.validateForm (login_with Samples.thandi) = None.
Proof. apply (signup_valid_login_valid Samples.thandi). reflexivity. Defined.

(** ** What the handlers do on every input *)

Lemma signup_message_filled (f : SignUpScreen.FormData) (m : jsstring) :
  SignUpScreen.validateForm f = Some m → m ≠ Js.Empty.
Proof. intros Hv%validateForm_iff_verdict. by inversion Hv. Qed.

Lemma login_message_filled (g : LoginScreen.FormData) (m : jsstring) :
  LoginScreen.validateForm g = Some m → m ≠ Js.Empty.
Proof.
  unfold LoginScreen.validateForm.
  destruct (_ || _); [by intros [= <-]|].
  destruct (negb _); by intros [= <-].
Qed.

Lemma or_default_filled (a b : jsstring) :
  b ≠ Js.Empty → or_default a b ≠ Js.Empty.
Proof. intros Hb. by destruct a. Qed.


(** X4.  The first sign-up screen sends its requests in one order, each at
    most once and each only after the one before succeeded.  A form that
    fails validation sends none.  A valid form sends the citizen query; it
    sends the provider's sign-up next exactly when the query returned a row
    and no error; and it sends the insert after that exactly when the
    sign-up returned no error.  The row it inserts links the citizen the
    query returned to the user the provider returned. *)
Theorem register_requests_in_order
    (w : World) (f : SignUpScreen.FormData) (p : Page) :
  let query := CitizensSingle (SignUpScreen.orFilter (SignUpScreen.idNumber f)) in
  let sign_up := AuthSignUp (SignUpScreen.signUp_args f) in
  (SignUpScreen.validateForm f ≠ None
   ∧ requests (trace (SignUpScreen.handleRegister w f p)) = [])
  ∨ (SignUpScreen.validateForm f = None
     ∧ ¬ citizen_found w f
     ∧ requests (trace (SignUpScreen.handleRegister w f p)) = [query])
  ∨ (SignUpScreen.validateForm f = None
     ∧ citizen_found w f ∧ ¬ user_created w f
     ∧ requests (trace (SignUpScreen.handleRegister w f p))
       = [query; sign_up])
  ∨ (SignUpScreen.validateForm f = None
     ∧ ∃ r c auth,
         citizens_single w (SignUpScreen.orFilter (SignUpScreen.idNumber f))
           = Fulfilled r
         ∧ lookup_error r = None ∧ lookup_data r = Some c
         ∧ auth_signUp w (SignUpScreen.signUp_args f) = Fulfilled auth
         ∧ auth_error auth = None
         ∧ requests (trace (SignUpScreen.handleRegister w f p))
           = [query; sign_up;
              UsersInsert {| row_user_id := id <$> auth_user auth;
                             row_citizen_id := citizen_id c;
                             row_email := "user" +:+ SignUpScreen.idNumber f
                                                 +:+ "@example.com";
                             row_phone := SignUpScreen.phone f |}]).
Proof.
  cbn zeta. unfold citizen_found, user_created, SignUpScreen.handleRegister.
  destruct (SignUpScreen.validateForm f) as [m|] eqn:Hv; run_monad;
    [by left|].
  right.
  destruct (citizens_single w _) as [r|e|] eqn:Hw; cbn;
    [|left; split; [done|]; split; [|done]; by intros (? & ? & [=] & _)..].
  destruct (lookup_error r) as [e|] eqn:He; cbn.
  { left. split; [done|]. split; [|done].
    intros (r' & c' & [= <-] & He' & _). congruence. }
  destruct (lookup_data r) as [c|] eqn:Hd; cbn.
  2:{ left. split; [done|]. split; [|done].
      intros (r' & c' & [= <-] & _ & Hd'). congruence. }
  right.
  assert (∃ r' c', Fulfilled r = Fulfilled r' ∧ lookup_error r' = None
                   ∧ lookup_data r' = Some c') as Hfound
    by (by exists r, c).
  destruct (auth_signUp w _) as [auth|e|] eqn:Ha; cbn;
    [|left; split; [done|]; split; [done|]; split; [|done];
      by intros (? & [=] & _)..].
  destruct (auth_error auth) as [e|] eqn:Hae; cbn.
  { left. split; [done|]. split; [done|]. split; [|done].
    intros (auth' & [= <-] & Hae'). congruence. }
  right. split; [done|]. exists r, c, auth.
  do 5 (split; [done|]). settle; done.
Qed.

(** X5.  The first sign-up screen navigates at most once and only to
    /login, and it does so exactly when the form is valid, the citizen
    query returned a row without error, the provider's sign-up returned
    without error, and the insert returned without error or with the
    duplicate-key code. *)
Theorem register_navigates_iff
    (w : World) (f : SignUpScreen.FormData) (p : Page) :
  (navigations (trace (SignUpScreen.handleRegister w f p)) = []
   ∨ navigations (trace (SignUpScreen.handleRegister w f p)) = ["/login"])
  ∧ (navigations (trace (SignUpScreen.handleRegister w f p)) = ["/login"]
     ↔ SignUpScreen.validateForm f = None
       ∧ ∃ r c auth ins,
           citizens_single w (SignUpScreen.orFilter (SignUpScreen.idNumber f))
             = Fulfilled r
           ∧ lookup_error r = None ∧ lookup_data r = Some c
           ∧ auth_signUp w (SignUpScreen.signUp_args f) = Fulfilled auth
           ∧ auth_error auth = None
           ∧ users_insert w (SignUpScreen.users_row f c auth) = Fulfilled ins
           ∧ (insert_error ins = None
              ∨ ∃ dbError, insert_error ins = Some dbError
                           ∧ code dbError = Some "23505")).
Proof.
  split; [|split].
  - unfold SignUpScreen.handleRegister.
    destruct (SignUpScreen.validateForm f); run_monad; [by left|].
    settle; auto.
  - unfold SignUpScreen.handleRegister.
    destruct (SignUpScreen.validateForm f) as [m|] eqn:Hv; run_monad;
      [done|].
    settle; try discriminate; intros _; (split; [done|]);
      eexists _, _, _, _;
      repeat (split; [first [reflexivity|eassumption]|]).
    + right. eexists. split; [eassumption|]. by eapply bool_decide_eq_true.
    + by left.
  - intros (Hv & r & c & auth & ins & Hw & He & Hd & Ha & Hae & Hi & Hok).
    rewrite (register_insert_settled w f p Hv r c auth ins Hw He Hd Ha Hae Hi).
    cbn. destruct Hok as [->|(dbError & -> & Hc)]; [done|].
    by rewrite (bool_decide_eq_true_2 _ Hc).
Qed.

(** X6.  No run fails in silence.  A run of the first or the second sign-up
    handler that comes to an end either went to /login with no error on
    display, or went nowhere and displays a non-empty error.  A run of the
    login handler that comes to an end either went to /home, leaving on
    display whatever error was there before, or went nowhere and displays a
    non-empty error. *)
Theorem finished_run_goes_or_reports
    (w : World) (g : LoginScreen.FormData) (f : SignUpScreen.FormData)
    (p : Page) :
  (completion (LoginScreen.handleLogin w g p) ≠ Stuck →
   went_or_reported "/home" (error p) (LoginScreen.handleLogin w g p))
  ∧ (completion (SignUpScreen.handleRegister w f p) ≠ Stuck →
     went_or_reported "/login" Js.Empty (SignUpScreen.handleRegister w f p))
  ∧ (completion (SignUpScreen2.handleRegister w f p) ≠ Stuck →
     went_or_reported "/login" Js.Empty
                      (SignUpScreen2.handleRegister w f p)).
Proof.
  unfold went_or_reported. split; [|split].
  - unfold LoginScreen.handleLogin.
    destruct (LoginScreen.validateForm g) as [m|] eqn:Hv; run_monad.
    { intros _. right. split; [done|]. by eapply login_message_filled. }
    settle; intros Hc; try done;
      first [by left | right; split; [done|]; by apply or_default_filled].
  - unfold SignUpScreen.handleRegister.
    destruct (SignUpScreen.validateForm f) as [m|] eqn:Hv; run_monad.
    { intros _. right. split; [done|]. by eapply signup_message_filled. }
    settle; intros Hc; try done;
      first [by left | right; split; [done|]; by apply or_default_filled].
  - unfold SignUpScreen2.handleRegister.
    destruct (SignUpScreen2.validateForm f) as [m|] eqn:Hv; run_monad.
    { intros _. right. split; [done|]. by eapply signup_message_filled. }
    settle; intros Hc; try done;
      first [by left | right; split; [done|]; by apply or_default_filled].
Qed.

Lemma finished_run_goes_or_reports_witness :
  went_or_reported "/home" Js.Empty
    (LoginScreen.handleLogin Samples.calm Samples.thandi_login Samples.blank)
  ∧ went_or_reported "/login" Js.Empty
      (SignUpScreen.handleRegister Samples.no_citizen Samples.thandi
                                   Samples.blank)
  ∧ went_or_reported "/login" Js.Empty
      (SignUpScreen2.handleRegister Samples.refused Samples.thandi
                                    Samples.blank).
Proof.
  destruct (finished_run_goes_or_reports Samples.calm Samples.thandi_login
              Samples.thandi Samples.blank) as (H1 & _ & _).
  destruct (finished_run_goes_or_reports Samples.no_citizen
              Samples.thandi_login Samples.thandi Samples.blank)
    as (_ & H2 & _).
  destruct (finished_run_goes_or_reports Samples.refused Samples.thandi_login
              Samples.thandi Samples.blank) as (_ & _ & H3).
  split; [|split].
  - apply H1. discriminate.
  - apply H2. discriminate.
  - apply H3. discriminate.
Defined.

(** X7.  The sign-up handlers never write to the local storage.  The login
    handler writes at most once, only under the key [token] and only in a
    run that goes on to /home; every other key keeps its value. *)
Theorem storage_discipline
    (w : World) (g : LoginScreen.FormData) (f : SignUpScreen.FormData)
    (p : Page) :
  (storage_writes (trace (SignUpScreen.handleRegister w f p)) = []
   ∧ localStorage (page (SignUpScreen.handleRegister w f p)) = localStorage p)
  ∧ (storage_writes (trace (SignUpScreen2.handleRegister w f p)) = []
     ∧ localStorage (page (SignUpScreen2.handleRegister w f p))
       = localStorage p)
  ∧ ((storage_writes (trace (LoginScreen.handleLogin w g p)) = []
      ∧ localStorage (page (LoginScreen.handleLogin w g p)) = localStorage p)
     ∨ ∃ v, storage_writes (trace (LoginScreen.handleLogin w g p))
            = [("token", v)]
            ∧ localStorage (page (LoginScreen.handleLogin w g p))
              = <["token" := v]> (localStorage p)
            ∧ navigations (trace (LoginScreen.handleLogin w g p))
              = ["/home"]).
Proof.
  split; [|split].
  - unfold SignUpScreen.handleRegister.
    destruct (SignUpScreen.validateForm f); run_monad; [done|].
    settle; done.
  - unfold SignUpScreen2.handleRegister.
    destruct (SignUpScreen2.validateForm f); run_monad; [done|].
    settle; done.
  - unfold LoginScreen.handleLogin.
    destruct (LoginScreen.validateForm g); run_monad; [by left|].
    settle; first [by left | right; by eexists].
Qed.

(** X8.  On the first sign-up screen, when validation passes and the
    citizen is found, an error of the provider's sign-up, returned or
    thrown, ends the run before the insert: no row is written, there is no
    navigation, and the error's message is displayed, or "Registration
    failed." when the message is empty. *)
Theorem register_provider_error
    (w : World) (f : SignUpScreen.FormData) (p : Page) (r : LookupResult)
    (c : Citizen) (err : JsError) :
  SignUpScreen.validateForm f = None →
  citizens_single w (SignUpScreen.orFilter (SignUpScreen.idNumber f))
    = Fulfilled r →
  lookup_error r = None → lookup_data r = Some c →
  auth_signUp w (SignUpScreen.signUp_args f) = Rejected err
  ∨ (∃ auth, auth_signUp w (SignUpScreen.signUp_args f) = Fulfilled auth
             ∧ auth_error auth = Some err) →
  user_inserts (trace (SignUpScreen.handleRegister w f p)) = []
  ∧ navigations (trace (SignUpScreen.handleRegister w f p)) = []
  ∧ completion (SignUpScreen.handleRegister w f p) = Normal tt
  ∧ (message err ≠ Js.Empty →
     error (page (SignUpScreen.handleRegister w f p)) = message err)
  ∧ (message err = Js.Empty →
     error (page (SignUpScreen.handleRegister w f p)) = "Registration failed.").
Proof.
  intros Hv Hw He Hd Ha. unfold SignUpScreen.handleRegister. rewrite Hv.
  run_monad. rewrite Hw. cbn. rewrite He, Hd. cbn.
  destruct Ha as [Ha|(auth & Ha & Hae)]; rewrite Ha; cbn;
    [|rewrite Hae; cbn];
    (do 3 (split; [done|]));
    destruct (or_default_cases (message err) "Registration failed.")
      as [[Hm ->]|[Hm ->]]; by split.
Qed.

Lemma register_provider_error_witness :
  user_inserts (trace (SignUpScreen.handleRegister Samples.refused
                         Samples.thandi Samples.blank)) = []
  ∧ error (page (SignUpScreen.handleRegister Samples.refused Samples.thandi
                   Samples.blank)) = "User already registered".
Proof.
  destruct (register_provider_error Samples.refused Samples.thandi
              Samples.blank _ Samples.mokoena
              (new_Error "User already registered")
              eq_refl eq_refl eq_refl eq_refl) as (H1 & _ & _ & H2 & _).
  - right. by eexists.
  - split; [exact H1|]. apply H2. discriminate.
Defined.

(** ** The login handler on its other paths *)

(** X9.  When the login request itself fails (the promise of [fetch]
    rejects), the body is never read, nothing is stored and there is no
    navigation; the rejection's message is displayed, or "Login failed.
    Check ID and password." when it has none. *)
Theorem login_network_failure
    (w : World) (g : LoginScreen.FormData) (p : Page) (err : JsError) :
  LoginScreen.validateForm g = None →
  fetch w LoginScreen.login_url (LoginScreen.request_body g) = Rejected err →
  requests (trace (LoginScreen.handleLogin w g p))
    = [Fetch LoginScreen.login_url (LoginScreen.request_body g)]
  ∧ localStorage (page (LoginScreen.handleLogin w g p)) = localStorage p
  ∧ navigations (trace (LoginScreen.handleLogin w g p)) = []
  ∧ loading (page (LoginScreen.handleLogin w g p)) = false
  ∧ (message err ≠ Js.Empty →
     error (page (LoginScreen.handleLogin w g p)) = message err)
  ∧ (message err = Js.Empty →
     error (page (LoginScreen.handleLogin w g p))
     = "Login failed. Check ID and password.").
Proof.
  intros Hv Hw. rewrite (login_fetch_failed w g p Hv err Hw). cbn.
  do 4 (split; [done|]).
  destruct (or_default_cases (message err)
              "Login failed. Check ID and password.")
    as [[Hm ->]|[Hm ->]]; by split.
Qed.

Lemma login_network_failure_witness :
  error (page (LoginScreen.handleLogin MoreSamples.offline Samples.thandi_login
                 Samples.blank)) = "Failed to fetch"
  ∧ navigations (trace (LoginScreen.handleLogin MoreSamples.offline
                          Samples.thandi_login Samples.blank)) = [].
Proof.
  destruct (login_network_failure MoreSamples.offline Samples.thandi_login
              Samples.blank (new_Error "Failed to fetch") eq_refl eq_refl)
    as (_ & _ & H1 & _ & H2 & _).
  split; [|exact H1]. apply H2. discriminate.
Defined.

(** X10.  A success response needs no token: when the status is in
    200-299 and the body is a JSON value other than [null] whose [token] is
    absent or falsy, the login handler stores nothing and still goes to
    /home.  When the body is [null], whatever the status, reading its
    property throws: there is no navigation and the engine's error is
    displayed. *)
Theorem login_without_token
    (w : World) (g : LoginScreen.FormData) (p : Page) (resp : Response) :
  LoginScreen.validateForm g = None →
  fetch w LoginScreen.login_url (LoginScreen.request_body g) = Fulfilled resp →
  (∀ msg tok, ok resp = true → json resp = Fulfilled (JValue msg tok) →
     truthy tok = false →
     navigations (trace (LoginScreen.handleLogin w g p)) = ["/home"]
     ∧ storage_writes (trace (LoginScreen.handleLogin w g p)) = []
     ∧ localStorage (page (LoginScreen.handleLogin w g p)) = localStorage p
     ∧ error (page (LoginScreen.handleLogin w g p)) = error p)
  ∧ (json resp = Fulfilled JNull →
     navigations (trace (LoginScreen.handleLogin w g p)) = []
     ∧ storage_writes (trace (LoginScreen.handleLogin w g p)) = []
     ∧ error (page (LoginScreen.handleLogin w g p))
       = or_default
           (message (null_property_error w
                       (if ok resp then "token" else "message")))
           "Login failed. Check ID and password.").
Proof.
  intros Hv Hw. split.
  - intros msg tok Hok Hj Ht.
    rewrite (login_ok w g p Hv resp msg tok Hw Hok Hj). by rewrite Ht.
  - intros Hj. unfold LoginScreen.handleLogin. rewrite Hv. run_monad.
    rewrite Hw. cbn. rewrite Hj. cbn. by destruct (ok resp).
Qed.

Lemma login_without_token_witness :
  navigations (trace (LoginScreen.handleLogin MoreSamples.tokenless
                        Samples.thandi_login Samples.blank)) = ["/home"]
  ∧ storage_writes (trace (LoginScreen.handleLogin MoreSamples.tokenless
                             Samples.thandi_login Samples.blank)) = []
  ∧ error (page (LoginScreen.handleLogin Samples.duplicate_insert
                   Samples.thandi_login Samples.blank))
    = "Cannot read properties of null (reading 'token')".
Proof.
  destruct (login_without_token MoreSamples.tokenless Samples.thandi_login
              Samples.blank _ eq_refl eq_refl) as [H1 _].
  destruct (H1 _ _ eq_refl eq_refl eq_refl) as (Hn & Hs & _).
  destruct (login_without_token Samples.duplicate_insert Samples.thandi_login
              Samples.blank _ eq_refl eq_refl) as [_ H2].
  destruct (H2 eq_refl) as (_ & _ & He).
  split; [exact Hn|]. split; [exact Hs|exact He].
Defined.

(** X11.  The login handler navigates at most once and only to /home.
    It navigates only when the form is valid, the request was answered
    with a status in 200-299, the body parsed to a JSON value other than
    [null], and the token of that body was falsy or could be converted to
    a string.  Whenever the first three hold and the token is absent or
    falsy, it does navigate. *)
Theorem login_navigates_only_after_success
    (w : World) (g : LoginScreen.FormData) (p : Page) :
  (navigations (trace (LoginScreen.handleLogin w g p)) = []
   ∨ navigations (trace (LoginScreen.handleLogin w g p)) = ["/home"])
  ∧ (navigations (trace (LoginScreen.handleLogin w g p)) = ["/home"] →
     LoginScreen.validateForm g = None
     ∧ ∃ resp msg tok,
         fetch w LoginScreen.login_url (LoginScreen.request_body g)
           = Fulfilled resp
         ∧ ok resp = true
         ∧ json resp = Fulfilled (JValue msg tok)
         ∧ (truthy tok = false ∨ ∃ value, to_string tok = Some value))
  ∧ (∀ resp msg tok,
       LoginScreen.validateForm g = None →
       fetch w LoginScreen.login_url (LoginScreen.request_body g)
         = Fulfilled resp →
       ok resp = true →
       json resp = Fulfilled (JValue msg tok) →
       truthy tok = false →
       navigations (trace (LoginScreen.handleLogin w g p)) = ["/home"]).
Proof.
  split; [|split].
  - unfold LoginScreen.handleLogin.
    destruct (LoginScreen.validateForm g); run_monad; [by left|].
    settle; auto.
  - unfold LoginScreen.handleLogin.
    destruct (LoginScreen.validateForm g) as [m|] eqn:Hv; run_monad;
      [done|].
    settle; try discriminate; intros _; (split; [done|]);
      eexists _, _, _;
      repeat (split; [first [reflexivity|eassumption]|]);
      first [by left | right; by eexists].
  - intros resp msg tok Hv Hw Hok Hj Ht.
    rewrite (login_ok w g p Hv resp msg tok Hw Hok Hj). by rewrite Ht.
Qed.

Lemma login_navigates_only_after_success_witness :
  LoginScreen.validateForm Samples.thandi_login = None
  ∧ navigations (trace (LoginScreen.handleLogin MoreSamples.tokenless
                          Samples.thandi_login Samples.blank)) = ["/home"].
Proof.
  destruct (login_navigates_only_after_success Samples.calm
              Samples.thandi_login Samples.blank) as (_ & H1 & _).
  destruct (H1 eq_refl) as [Hv _].
  destruct (login_navigates_only_after_success MoreSamples.tokenless
              Samples.thandi_login Samples.blank) as (_ & _ & H2).
  split; [exact Hv|]. by eapply (H2 _ _ _ eq_refl eq_refl eq_refl eq_refl).
Defined.

(** ** What the provider is given *)

Lemma trim_start_keeps (s : jsstring) :
  starts_with_white s = false → trim_start s = s.
Proof. destruct s as [|c s]; [done|]. simpl. by intros ->. Qed.

Lemma trim_end_cons (c : N) (s : jsstring) :
  trim_end (Js.Cons c s)
  = match trim_end s with
    | Js.Empty =>
        if is_white_space c then Js.Empty else Js.Cons c Js.Empty
    | t => Js.Cons c t
    end.
Proof. reflexivity. Qed.

Lemma trim_end_unchanged (s : jsstring) :
  ends_with_white s = false → trim_end s = s.
Proof.
  induction s as [|c s IH]; [done|]. destruct s as [|c' s'].
  - simpl. by intros ->.
  - intros H. change (ends_with_white (Js.Cons c' s') = false) in H.
    by rewrite trim_end_cons, (IH H).
Qed.

Lemma trim_start_clean (s : jsstring) :
  starts_with_white (trim_start s) = false.
Proof.
  induction s as [|c s IH]; [done|]. simpl.
  destruct (is_white_space c) eqn:Hc; [done|]. simpl. by rewrite Hc.
Qed.

Lemma trim_end_clean (s : jsstring) : ends_with_white (trim_end s) = false.
Proof.
  induction s as [|c s IH]; [done|]. cbn [trim_end].
  destruct (trim_end s) as [|c' t] eqn:E.
  - destruct (is_white_space c) eqn:Hc; [done|]. simpl. by rewrite Hc.
  - exact IH.
Qed.

Lemma trim_end_start (s : jsstring) :
  starts_with_white s = false → starts_with_white (trim_end s) = false.
Proof.
  destruct s as [|c s]; [done|]. simpl. intros Hc.
  destruct (trim_end s); [by rewrite Hc|done].
Qed.

Lemma length_trim_start (s : jsstring) :
  Js.length (trim_start s) ≤ Js.length s.
Proof.
  induction s as [|c s IH]; [done|]. simpl.
  destruct (is_white_space c); simpl; lia.
Qed.

Lemma length_trim_end (s : jsstring) :
  Js.length (trim_end s) ≤ Js.length s.
Proof.
  induction s as [|c s IH]; [done|]. cbn [trim_end].
  destruct (trim_end s) as [|c' t].
  - destruct (is_white_space c); simpl; lia.
  - simpl in *. lia.
Qed.

Lemma trim_fixed (s : jsstring) :
  trim s = s ↔ starts_with_white s = false ∧ ends_with_white s = false.
Proof.
  unfold trim. split.
  - intros E. split; rewrite <- E.
    + apply trim_end_start, trim_start_clean.
    + apply trim_end_clean.
  - intros [Hs He]. rewrite (trim_start_keeps s Hs).
    by apply trim_end_unchanged.
Qed.

(** A string without white space is left alone by [trim]. *)
Lemma trim_no_white (s : jsstring) :
  Forall (λ c, is_white_space c = false) (Js.units s) → trim s = s.
Proof.
  intros H. apply trim_fixed. split.
  - destruct s as [|c s]; [done|]. by inversion H.
  - induction s as [|c s IH]; [done|]. inversion H; subst.
    destruct s as [|c' s']; [done|]. by apply IH.
Qed.

Lemma digit_not_white (c : N) :
  c ∈ Rules.digits → is_white_space c = false.
Proof.
  unfold Rules.digits. rewrite !elem_of_cons, elem_of_nil.
  intros H. repeat (destruct H as [->|H]; [done|]). done.
Qed.

Lemma phone_number_no_white (s : jsstring) :
  Rules.phone_number s → Forall (λ c, is_white_space c = false) (Js.units s).
Proof.
  intros (d & [->| ->] & _ & Hd); [|constructor; [done|]];
    (eapply Forall_impl; [exact Hd|]); intros c; apply digit_not_white.
Qed.

(** X12.  On the first sign-up screen, for a form that passed validation,
    the provider and the linking row are given the same email and the same
    phone number, the one that was typed: trimming changes neither. *)
Theorem register_contact_details_agree
    (f : SignUpScreen.FormData) (c : Citizen) (auth : AuthResponse) :
  SignUpScreen.validateForm f = None →
  email (SignUpScreen.signUp_args f)
    = row_email (SignUpScreen.users_row f c auth)
  ∧ arg_phone (SignUpScreen.signUp_args f)
    = Some (row_phone (SignUpScreen.users_row f c auth))
  ∧ row_phone (SignUpScreen.users_row f c auth) = SignUpScreen.phone f.
Proof.
  intros Hv%validateForm_iff_verdict.
  inversion Hv as [| | | | |Hf Hid Hph Hlen Heq].
  split; [apply trim_fakeEmail|]. split; [|done]. cbn. f_equal.
  by apply trim_no_white, phone_number_no_white.
Qed.

Lemma register_contact_details_agree_witness :
  arg_phone (SignUpScreen.signUp_args Samples.thandi) = Some "+27821234567".
Proof.
  destruct (register_contact_details_agree Samples.thandi Samples.mokoena
              {| auth_user := None; auth_error := None |} eq_refl)
    as (_ & H & _).
  exact H.
Defined.

Lemma all_white_empty : all_white Js.Empty.
Proof. constructor. Qed.

Lemma all_white_cons (c : N) (s : jsstring) :
  is_white_space c = true → all_white s → all_white (Js.Cons c s).
Proof. intros Hc Hs. by constructor. Qed.

Lemma trim_start_split (s : jsstring) :
  ∃ before, s = before +:+ trim_start s ∧ all_white before.
Proof.
  induction s as [|c s (before & E & Hb)].
  { exists Js.Empty. split; [reflexivity|apply all_white_empty]. }
  simpl. destruct (is_white_space c) eqn:Hc.
  - exists (Js.Cons c before). split; [|by apply all_white_cons].
    rewrite append_cons. by f_equal.
  - exists Js.Empty. split; [reflexivity|apply all_white_empty].
Qed.

Lemma trim_end_split (s : jsstring) :
  ∃ after, s = trim_end s +:+ after ∧ all_white after.
Proof.
  induction s as [|c s (after & E & Ha)].
  { exists Js.Empty. split; [reflexivity|apply all_white_empty]. }
  rewrite trim_end_cons. destruct (trim_end s) as [|c' t] eqn:Et.
  - change (Js.Empty +:+ after) with after in E. subst after.
    destruct (is_white_space c) eqn:Hc.
    + exists (Js.Cons c s). split; [reflexivity|by apply all_white_cons].
    + exists s. split; [reflexivity|done].
  - exists after. split; [|done]. rewrite append_cons. by f_equal.
Qed.

(** X13.  The first sign-up screen gives the provider the password with
    the white space at its two ends removed: the typed password is what is
    sent with nothing but white space before and after it, and what is sent
    neither starts nor ends with white space.  It is the password the login
    screen would send for the same typing exactly when the typed password
    neither starts nor ends with white space.  The second sign-up screen
    sends the password as typed. *)
Theorem register_password_trimmed (f : SignUpScreen.FormData) :
  (∃ before after,
     SignUpScreen.password f
     = before +:+ arg_password (SignUpScreen.signUp_args f) +:+ after
     ∧ all_white before ∧ all_white after)
  ∧ starts_with_white (arg_password (SignUpScreen.signUp_args f)) = false
  ∧ ends_with_white (arg_password (SignUpScreen.signUp_args f)) = false
  ∧ (arg_password (SignUpScreen.signUp_args f)
     = req_password (LoginScreen.request_body (login_with f))
     ↔ starts_with_white (SignUpScreen.password f) = false
       ∧ ends_with_white (SignUpScreen.password f) = false)
  ∧ arg_password (SignUpScreen2.signUp_args f)
    = req_password (LoginScreen.request_body (login_with f)).
Proof.
  cbn. unfold trim. split; [|split; [|split; [|split]]].
  - destruct (trim_start_split (SignUpScreen.password f))
      as (before & E1 & Hb).
    destruct (trim_end_split (trim_start (SignUpScreen.password f)))
      as (after & E2 & Ha).
    exists before, after. split; [|done]. by rewrite <- E2.
  - apply trim_end_start, trim_start_clean.
  - apply trim_end_clean.
  - apply trim_fixed.
  - done.
Qed.

(** White space beyond Latin-1 is removed as well. *)
Example register_wide_padded_password :
  arg_password (SignUpScreen.signUp_args
                  (MoreSamples.with_password MoreSamples.wide_padded))
  = "secret".
Proof. reflexivity. Qed.

(** A password of three characters between spaces passes the length rule
    and is registered as three characters. *)
Example register_padded_password :
  SignUpScreen.validateForm MoreSamples.padded = None
  ∧ arg_password (SignUpScreen.signUp_args MoreSamples.padded) = "abc".
Proof. by split. Qed.

(** ** Typing and clicking *)

#[local] Arguments Js.eqb : simpl never.

(** Case analysis on the comparisons of a key with the names of the
    fields. *)
Ltac by_key :=
  repeat match goal with
         | |- context [Js.eqb ?a ?b] =>
             destruct (eqb_spec a b); try subst; try done; cbn
         end.

Lemma signup_assign_commute (k1 v1 k2 v2 : jsstring)
    (f : SignUpScreen.FormData) :
  k1 ≠ k2 →
  SignUpComponent.assign k1 v1 (SignUpComponent.assign k2 v2 f)
  = SignUpComponent.assign k2 v2 (SignUpComponent.assign k1 v1 f).
Proof. intros Hne. unfold SignUpComponent.assign. by_key. Qed.

Lemma login_assign_commute (k1 v1 k2 v2 : jsstring)
    (g : LoginScreen.FormData) :
  k1 ≠ k2 →
  LoginComponent.assign k1 v1 (LoginComponent.assign k2 v2 g)
  = LoginComponent.assign k2 v2 (LoginComponent.assign k1 v1 g).
Proof. intros Hne. unfold LoginComponent.assign. by_key. Qed.

(** Edits to different keys can be swapped under any later edits. *)
Lemma type_all_permutation {F : Type}
    (change : jsstring → jsstring → Component F → Component F)
    (edits edits' : list (jsstring * jsstring)) :
  (∀ k1 v1 k2 v2 st, k1 ≠ k2 →
     change k1 v1 (change k2 v2 st) = change k2 v2 (change k1 v1 st)) →
  NoDup edits.*1 → edits ≡ₚ edits' →
  ∀ st, type_all change edits st = type_all change edits' st.
Proof.
  intros Hc Hnd Hp. unfold type_all.
  induction Hp as [|e l l' Hp IH|e1 e2 l|l1 l2 l3 Hp1 IH1 Hp2 IH2];
    intros st; cbn.
  - done.
  - apply IH. by apply NoDup_cons in Hnd as [_ ?].
  - f_equal. apply Hc. cbn in Hnd.
    apply NoDup_cons in Hnd as [Hnot _]. intros E. apply Hnot.
    rewrite E. apply list_elem_of_here.
  - rewrite IH1 by done. apply IH2. by rewrite <- Hp1.
Qed.

(** X14.  Every input is wired to its own field.  On both sign-up screens
    and on the login screen, typing [v] into the input called [n] makes
    that input show [v], leaves what every other input shows as it was,
    and takes the error paragraph off the screen; the button is as it
    was. *)
Theorem typing_updates_its_input
    (n v k : jsstring) (st : Component SignUpScreen.FormData)
    (st' : Component LoginScreen.FormData) :
  (is_Some (shown k (SignUpComponent.render st)) →
   shown k (SignUpComponent.render (SignUpComponent.handleChange n v st))
   = if Js.eqb k n then Some v
     else shown k (SignUpComponent.render st))
  ∧ (is_Some (shown k (LoginComponent.render st')) →
     shown k (LoginComponent.render (LoginComponent.handleChange n v st'))
     = if Js.eqb k n then Some v
       else shown k (LoginComponent.render st'))
  ∧ banner (SignUpComponent.render (SignUpComponent.handleChange n v st))
    = None
  ∧ banner (LoginComponent.render (LoginComponent.handleChange n v st'))
    = None
  ∧ submit_disabled
      (SignUpComponent.render (SignUpComponent.handleChange n v st))
    = submit_disabled (SignUpComponent.render st)
  ∧ submit_disabled
      (LoginComponent.render (LoginComponent.handleChange n v st'))
    = submit_disabled (LoginComponent.render st').
Proof.
  split; [|split; [|done]].
  - unfold shown, SignUpComponent.render, SignUpComponent.handleChange,
      SignUpComponent.assign. cbn. by_key; try by intros [? [=]].
  - unfold shown, LoginComponent.render, LoginComponent.handleChange,
      LoginComponent.assign. cbn. by_key; try by intros [? [=]].
Qed.

Lemma typing_updates_its_input_witness :
  shown "phone"
    (SignUpComponent.render
       (SignUpComponent.handleChange "phone" "0821234567"
          {| st_form := Samples.thandi; st_page := Samples.blank |}))
  = Some "0821234567"
  ∧ shown "idNumber"
      (LoginComponent.render
         (LoginComponent.handleChange "password" "x"
            {| st_form := Samples.thandi_login; st_page := Samples.blank |}))
    = Some "9001015009087".
Proof.
  destruct (typing_updates_its_input "phone" "0821234567" "phone"
              {| st_form := Samples.thandi; st_page := Samples.blank |}
              {| st_form := Samples.thandi_login; st_page := Samples.blank |})
    as (H1 & _).
  destruct (typing_updates_its_input "password" "x" "idNumber"
              {| st_form := Samples.thandi; st_page := Samples.blank |}
              {| st_form := Samples.thandi_login; st_page := Samples.blank |})
    as (_ & H2 & _).
  split.
  - apply H1. by eexists.
  - apply H2. by eexists.
Defined.

(** X15.  The order of typing does not matter: on each screen, a series of
    edits to different inputs leaves the same form and the same page in
    whatever order the edits are made. *)
Theorem typing_order_is_irrelevant
    (edits edits' : list (jsstring * jsstring))
    (st : Component SignUpScreen.FormData)
    (st' : Component LoginScreen.FormData) :
  NoDup edits.*1 → edits ≡ₚ edits' →
  type_all SignUpComponent.handleChange edits st
  = type_all SignUpComponent.handleChange edits' st
  ∧ type_all LoginComponent.handleChange edits st'
    = type_all LoginComponent.handleChange edits' st'.
Proof.
  intros Hnd Hp. split.
  - apply type_all_permutation; [|done..].
    intros k1 v1 k2 v2 s Hne. unfold SignUpComponent.handleChange. cbn.
    f_equal. by apply signup_assign_commute.
  - apply type_all_permutation; [|done..].
    intros k1 v1 k2 v2 s Hne. unfold LoginComponent.handleChange. cbn.
    f_equal. by apply login_assign_commute.
Qed.

Lemma typing_order_is_irrelevant_witness :
  type_all LoginComponent.handleChange
    [("idNumber", "9001015009087"); ("password", "correct-horse")]
    {| st_form := Samples.short_login; st_page := Samples.blank |}
  = type_all LoginComponent.handleChange
      [("password", "correct-horse"); ("idNumber", "9001015009087")]
      {| st_form := Samples.short_login; st_page := Samples.blank |}.
Proof.
  refine (proj2 (typing_order_is_irrelevant
                   [("idNumber", "9001015009087"); ("password", "correct-horse")]
                   [("password", "correct-horse"); ("idNumber", "9001015009087")]
                   {| st_form := Samples.thandi; st_page := Samples.blank |}
                   _ _ _)).
  - apply NoDup_cons. split; [|apply NoDup_singleton].
    intros H%list_elem_of_singleton. discriminate H.
  - apply perm_swap.
Defined.

(** X16.  While a request is pending the screen is locked: a run of any of
    the three handlers that is stuck on a request leaves the loading flag
    raised, so the button is rendered disabled with its progress label, and
    a click on it, whatever was typed in the meantime, runs nothing and
    changes nothing. *)
Theorem pending_request_locks_button
    (w w' : World) (g g' : LoginScreen.FormData)
    (f f' : SignUpScreen.FormData) (p : Page) :
  (completion (LoginScreen.handleLogin w g p) = Stuck →
   let st := {| st_form := g';
                st_page := page (LoginScreen.handleLogin w g p) |} in
   submit_disabled (LoginComponent.render st) = true
   ∧ submit_label (LoginComponent.render st) = "Logging in..."
   ∧ LoginComponent.onClick w' st
     = {| page := st_page st; trace := []; completion := Normal tt |})
  ∧ (completion (SignUpScreen.handleRegister w f p) = Stuck →
     let st := {| st_form := f';
                  st_page := page (SignUpScreen.handleRegister w f p) |} in
     submit_disabled (SignUpComponent.render st) = true
     ∧ submit_label (SignUpComponent.render st) = "Registering..."
     ∧ SignUpComponent.onClick w' st
       = {| page := st_page st; trace := []; completion := Normal tt |})
  ∧ (completion (SignUpScreen2.handleRegister w f p) = Stuck →
     let st := {| st_form := f';
                  st_page := page (SignUpScreen2.handleRegister w f p) |} in
     submit_disabled (SignUpComponent.render st) = true
     ∧ submit_label (SignUpComponent.render st) = "Registering..."
     ∧ SignUpComponent.onClick2 w' st
       = {| page := st_page st; trace := []; completion := Normal tt |}).
Proof.
  unfold LoginComponent.onClick, SignUpComponent.onClick,
    SignUpComponent.onClick2, click_button.
  split; [|split]; cbn.
  - unfold LoginScreen.handleLogin.
    destruct (LoginScreen.validateForm g); run_monad; [done|].
    settle; intros Hc; done.
  - unfold SignUpScreen.handleRegister.
    destruct (SignUpScreen.validateForm f); run_monad; [done|].
    settle; intros Hc; done.
  - unfold SignUpScreen2.handleRegister.
    destruct (SignUpScreen2.validateForm f); run_monad; [done|].
    settle; intros Hc; done.
Qed.

Lemma pending_request_locks_button_witness :
  trace (SignUpComponent.onClick Samples.calm
           {| st_form := Samples.thandi;
              st_page := page (SignUpScreen.handleRegister MoreSamples.silent
                                 Samples.thandi Samples.blank) |}) = []
  ∧ trace (LoginComponent.onClick Samples.calm
             {| st_form := Samples.thandi_login;
                st_page := page (LoginScreen.handleLogin MoreSamples.silent
                                   Samples.thandi_login Samples.blank) |}) = []
  ∧ trace (SignUpComponent.onClick2 Samples.calm
             {| st_form := Samples.thandi;
                st_page := page (SignUpScreen2.handleRegister
                                   MoreSamples.silent Samples.thandi
                                   Samples.blank) |}) = [].
Proof.
  destruct (pending_request_locks_button MoreSamples.silent Samples.calm
              Samples.thandi_login Samples.thandi_login
              Samples.thandi Samples.thandi Samples.blank)
    as (H1 & H2 & H3).
  destruct (H1 eq_refl) as (_ & _ & E1).
  destruct (H2 eq_refl) as (_ & _ & E2).
  destruct (H3 eq_refl) as (_ & _ & E3).
  split; [|split].
  - by rewrite E2.
  - by rewrite E1.
  - by rewrite E3.
Defined.

(** ** The requests themselves *)








(** X18.  The login handler reads the body of every response it gets,
    before it looks at the status: its requests are none for a form that
    fails validation, the call of the endpoint alone when that call
    rejects or stays pending, and the call followed by the reading of the
    body in every other case. *)
Theorem login_reads_every_body
    (w : World) (g : LoginScreen.FormData) (p : Page) :
  let call := Fetch LoginScreen.login_url (LoginScreen.request_body g) in
  (LoginScreen.validateForm g ≠ None
   ∧ requests (trace (LoginScreen.handleLogin w g p)) = [])
  ∨ (LoginScreen.validateForm g = None
     ∧ (∀ resp, fetch w LoginScreen.login_url (LoginScreen.request_body g)
                ≠ Fulfilled resp)
     ∧ requests (trace (LoginScreen.handleLogin w g p)) = [call])
  ∨ (LoginScreen.validateForm g = None
     ∧ (∃ resp, fetch w LoginScreen.login_url (LoginScreen.request_body g)
                = Fulfilled resp)
     ∧ requests (trace (LoginScreen.handleLogin w g p))
       = [call; ResponseJson]).
Proof.
  cbn zeta. unfold LoginScreen.handleLogin.
  destruct (LoginScreen.validateForm g) as [m|] eqn:Hv; run_monad;
    [by left|].
  right.
  destruct (fetch w LoginScreen.login_url (LoginScreen.request_body g))
    as [resp|e|] eqn:Hw; cbn.
  - right. split; [done|]. split; [by exists resp|]. settle; done.
  - left. by repeat split.
  - left. by repeat split.
Qed.
